(** * Jacobin class loading and method resolution: a shallow embedding

    The Go sources embedded here are
    - [classloader/classes.go]       (method area records, [FetchMethodAndCP],
                                      [FetchUTF8stringFromCPEntryNumber]),
    - [classloader/javaLangClass.go] (natives of java/lang/Class and the
                                      first steps of the class-file parser),
    - [classloader/statics.go]       (the statics store).

    Go values are modelled as follows: [int], [uint16] and [int64] are [Z]
    with the conversions written out, [string] is [string], a slice is a
    [list] read with stdpp's lookup, a [map[string]T] is a [gmap string T],
    a nilable pointer or interface is an [option], and a run-time panic is
    an explicit outcome. *)

From Stdlib Require Import ZArith String Ascii List Lia.
From Stdlib.Strings Require Import Byte.
From stdpp Require Import base option list gmap strings pretty.

Local Open Scope string_scope.
Local Open Scope Z_scope.

(* ===================================================================== *)
(** * Go runtime conventions *)
(* ===================================================================== *)

Module Go.

(** A Go call either returns or panics (index out of range, failed type
    assertion, nil dereference). *)
Inductive outcome (A : Type) : Type :=
| Ret (a : A)
| Panic.
Arguments Ret {A} a.
Arguments Panic {A}.

Definition obind {A B} (x : outcome A) (f : A -> outcome B) : outcome B :=
  match x with
  | Ret a => f a
  | Panic => Panic
  end.

(** [s[i]] on a slice: panics when [i] is outside [0, len(s))]. *)
Definition sliceAt {A} (s : list A) (i : Z) : outcome A :=
  if i <? 0 then Panic
  else match s !! Z.to_nat i with
       | Some a => Ret a
       | None => Panic
       end.

(** [p != nil] for a nilable value. *)
Definition notNil {A} (p : option A) : bool :=
  match p with Some _ => true | None => false end.

(** [len(s)] as a Go [int]. *)
Definition len {A} (s : list A) : Z := Z.of_nat (length s).

(** The conversion [uint16(n)] of a non-negative [int]: truncation to the
    low sixteen bits. *)
Definition uint16 (n : Z) : Z := n mod 65536.

(** Two's-complement wrap-around of [int64] arithmetic. *)
Definition int64 (n : Z) : Z := (n + 2 ^ 63) mod 2 ^ 64 - 2 ^ 63.

Definition in_int64 (n : Z) : Prop := - 2 ^ 63 <= n < 2 ^ 63.

(** [strconv.Itoa]. *)
Definition Itoa (n : Z) : string := pretty n.

(** A byte of a buffer as a number in [0, 256)]. *)
Definition byteZ (b : byte) : Z := Z.of_N (Byte.to_N b).

(** [string(bs)] for a byte slice. *)
Definition string_of_bytes (bs : list byte) : string :=
  string_of_list_byte bs.

(** The line feed of Go's ["\n"]. *)
Definition nl : string := String (ascii_of_nat 10) EmptyString.


End Go.
Export Go.

#[export] Instance outcome_ret : MRet outcome := @Ret.
#[export] Instance outcome_bind : MBind outcome := fun A B f x => obind x f.

(* ===================================================================== *)
(** * Errors *)
(* ===================================================================== *)

(** Modelled from the spec: the error kinds of its error taxonomy that the
    parser can be asked about.  The sources under study build errors in two
    ways only: [cfe(msg)] (the class-format-error constructor, declared in
    a file that is not part of the sources at hand) and [errors.New(msg)].
    No expression of the sources builds an [UnsupportedClassVersion]. *)
Inductive errKind : Type :=
| ClassFormatError
| UnsupportedClassVersion
| PlainError.

Record error : Type := mkError { kind : errKind; msg : string }.

(** [errors.New(msg)]. *)
Definition errorsNew (m : string) : error :=
  {| kind := PlainError; msg := m |}.

(** Modelled from the spec: [cfe], the constructor of class format errors
    (its declaration is missing); it yields an error of the kind
    [ClassFormatError] carrying the message. *)
Definition cfe (m : string) : error :=
  {| kind := ClassFormatError; msg := m |}.

(** Constant-pool tags: the list kept (commented out) in classes.go,
    "duplicates of the ones in cpParser.go". *)
Module Tag.
Definition Dummy : Z := 0.
Definition UTF8 : Z := 1.
Definition IntConst : Z := 3.
Definition FloatConst : Z := 4.
Definition LongConst : Z := 5.
Definition DoubleConst : Z := 6.
Definition ClassRef : Z := 7.
Definition StringConst : Z := 8.
Definition FieldRef : Z := 9.
Definition MethodRef : Z := 10.
Definition Interface : Z := 11.
Definition NameAndType : Z := 12.
Definition MethodHandle : Z := 15.
Definition MethodType : Z := 16.
Definition DynamicEntry : Z := 17.
Definition InvokeDynamicEntry : Z := 18.
Definition Module_ : Z := 19.
Definition Package : Z := 20.
End Tag.

(** Configuration read through [globals.GetInstance()]: the highest
    class-file major version accepted and the Java release it stands for. *)
Class Globals : Type := {
  MaxJavaVersionRaw : Z;
  MaxJavaVersion : Z
}.

(* ===================================================================== *)
(** * The class-file parser (javaLangClass.go, second part) *)
(* ===================================================================== *)

Module Parser.

(** An entry of the parser's primary constant-pool index. *)
Record cpEntry : Type := mkIndexEntry { entryType : Z; slot : Z }.

(** Payloads of the constant-pool tags other than UTF8 and ClassRef. *)
Inductive cpConstant : Type :=
| KInt (bits : Z)
| KFloat (bits : Z)
| KLong (bits : Z)
| KDouble (bits : Z)
| KString (utf8Index : Z)
| KFieldRef (classIndex nameAndType : Z)
| KMethodRef (classIndex nameAndType : Z)
| KInterfaceRef (classIndex nameAndType : Z)
| KNameAndType (nameIndex descIndex : Z)
| KMethodHandle (refKind refIndex : Z)
| KMethodType (descIndex : Z)
| KDynamic (bootstrapIndex nameAndType : Z)
| KInvokeDynamic (bootstrapIndex nameAndType : Z)
| KModule (nameIndex : Z)
| KPackage (nameIndex : Z).

(** The parser's output.  The struct declaration is not among the sources;
    the fields are those the parsing functions read and write:
    [klass.javaVersion], [klass.cpCount], [klass.cpIndex],
    [klass.classRefs[i].index], [klass.utf8Refs[i].content],
    [klass.accessFlags], the nine [klass.classIs...] flags,
    [klass.className] and [klass.superClass].  [classRefs] holds the
    [index] field of each entry and [utf8Refs] the [content] field.
    [constants] collects the payloads of the remaining tags. *)
Record parsedClass : Type := mkParsedClass {
  javaVersion : Z;
  cpCount : Z;
  cpIndex : list cpEntry;
  classRefs : list Z;
  utf8Refs : list string;
  constants : list cpConstant;
  accessFlags : Z;
  classIsPublic : bool;
  classIsFinal : bool;
  classIsSuper : bool;
  classIsInterface : bool;
  classIsAbstract : bool;
  classIsSynthetic : bool;
  classIsAnnotation : bool;
  classIsEnum : bool;
  classIsModule : bool;
  className : string;
  superClass : string
}.

(** [parsedClass{}]: the zero value. *)
Definition emptyClass : parsedClass :=
  mkParsedClass 0 0 [] [] [] [] 0 false false false false false false
                false false false "" "".

Definition set_javaVersion (v : Z) (k : parsedClass) : parsedClass :=
  let 'mkParsedClass _ b c d e f g h i j l m n o p q r s := k in
  mkParsedClass v b c d e f g h i j l m n o p q r s.

Definition set_cpCount (v : Z) (k : parsedClass) : parsedClass :=
  let 'mkParsedClass a _ c d e f g h i j l m n o p q r s := k in
  mkParsedClass a v c d e f g h i j l m n o p q r s.

Definition set_cpIndex (v : list cpEntry) (k : parsedClass) : parsedClass :=
  let 'mkParsedClass a b _ d e f g h i j l m n o p q r s := k in
  mkParsedClass a b v d e f g h i j l m n o p q r s.

Definition set_classRefs (v : list Z) (k : parsedClass) : parsedClass :=
  let 'mkParsedClass a b c _ e f g h i j l m n o p q r s := k in
  mkParsedClass a b c v e f g h i j l m n o p q r s.

Definition set_utf8Refs (v : list string) (k : parsedClass) : parsedClass :=
  let 'mkParsedClass a b c d _ f g h i j l m n o p q r s := k in
  mkParsedClass a b c d v f g h i j l m n o p q r s.

Definition set_constants (v : list cpConstant) (k : parsedClass)
  : parsedClass :=
  let 'mkParsedClass a b c d e _ g h i j l m n o p q r s := k in
  mkParsedClass a b c d e v g h i j l m n o p q r s.

Definition set_className (v : string) (k : parsedClass) : parsedClass :=
  let 'mkParsedClass a b c d e f g h i j l m n o p q _ s := k in
  mkParsedClass a b c d e f g h i j l m n o p q v s.

Definition set_superClass (v : string) (k : parsedClass) : parsedClass :=
  let 'mkParsedClass a b c d e f g h i j l m n o p q r _ := k in
  mkParsedClass a b c d e f g h i j l m n o p q r v.

(** The assignments of [parseAccessFlags]: the bitmask is stored and a
    flag is set to [true] when its bit is set (and otherwise keeps the
    value it had). *)
Definition set_access (v : Z) (k : parsedClass) : parsedClass :=
  let 'mkParsedClass a b c d e f _ h i j l m n o p q r s := k in
  let flag (mask : Z) (old : bool) : bool :=
    if Z.land v mask >? 0 then true else old in
  mkParsedClass a b c d e f v
    (flag 0x0001 h) (flag 0x0010 i) (flag 0x0020 j) (flag 0x0200 l)
    (flag 0x0400 m) (flag 0x1000 n) (flag 0x2000 o) (flag 0x4000 p)
    (flag 0x8000 q) r s.

(** ** Binary reader *)

(** Modelled from the spec: [intFrom2Bytes], the bounded read of a 2-byte
    big-endian unsigned integer at a caller-supplied offset (its
    declaration is missing).  The read returns a [ClassFormatError] if
    the requested range would exceed the buffer. *)
Definition intFrom2Bytes (bytes : list byte) (pos : Z) : Z * option error :=
  if (pos <? 0) || (len bytes <? pos + 2)
  then (0, Some (cfe "invalid offset into file"))
  else match bytes !! Z.to_nat pos, bytes !! Z.to_nat (pos + 1) with
       | Some hi, Some lo => (byteZ hi * 256 + byteZ lo, None)
       | _, _ => (0, Some (cfe "invalid offset into file"))
       end.

(** Modelled from the spec: the 4-byte companion of [intFrom2Bytes]. *)
Definition intFrom4Bytes (bytes : list byte) (pos : Z) : Z * option error :=
  match intFrom2Bytes bytes pos, intFrom2Bytes bytes (pos + 2) with
  | (hi, None), (lo, None) => (hi * 65536 + lo, None)
  | _, _ => (0, Some (cfe "invalid offset into file"))
  end.

(** ** The parsing steps present in the sources

    The steps also report what they read to the logger at level FINEST (and
    [parseAccessFlags] to standard error at that level); these traces do
    not bear on what the steps return and are left out. *)

Definition byte_is (bytes : list byte) (i : nat) (b : byte) : bool :=
  match bytes !! i with
  | Some x => Byte.eqb x b
  | None => false
  end.

Definition parseMagicNumber (bytes : list byte) : option error :=
  if len bytes <? 4 then Some (cfe "invalid magic number")
  else if negb (byte_is bytes 0 xca) || negb (byte_is bytes 1 xfe)
          || negb (byte_is bytes 2 xba) || negb (byte_is bytes 3 xbe)
  then Some (cfe "invalid magic number")
  else None.

Section WithGlobals.
Context `{Globals}.

Definition parseJavaVersionNumber (bytes : list byte) (klass : parsedClass)
  : parsedClass * option error :=
  match intFrom2Bytes bytes 6 with
  | (_, Some err) => (klass, Some err)
  | (version, None) =>
      if version >? MaxJavaVersionRaw then
        let errMsg := "Jacobin supports only Java versions through Java "
                      +:+ Itoa MaxJavaVersion in
        (klass, Some (cfe errMsg))
      else (set_javaVersion version klass, None)
  end.
End WithGlobals.

Definition getConstantPoolCount (bytes : list byte) (klass : parsedClass)
  : parsedClass * option error :=
  let '(cpEntryCount, err) := intFrom2Bytes bytes 8 in
  if notNil err || (cpEntryCount <=? 2) then
    (klass, Some (cfe ("Invalid number of entries in constant pool: "
                       +:+ Itoa cpEntryCount)))
  else (set_cpCount cpEntryCount klass, None).

Definition parseAccessFlags (bytes : list byte) (loc : Z)
           (klass : parsedClass) : parsedClass * Z * option error :=
  let pos := loc in
  let '(accessFlags, err) := intFrom2Bytes bytes (pos + 1) in
  let pos := pos + 2 in
  match err with
  | Some _ => (klass, pos, Some (cfe "Invalid get of class access flags"))
  | None => (set_access accessFlags klass, pos, None)
  end.

(** [parseClassName] and [parseSuperClassName].  The range check covers
    the 2-byte index read from the buffer only; the three slice accesses
    that follow it are unchecked in the source and panic out of range. *)
Definition parseClassName (bytes : list byte) (loc : Z)
           (klass : parsedClass)
  : outcome (parsedClass * Z * option error) :=
  let pos := loc in
  let '(index, err) := intFrom2Bytes bytes (pos + 1) in
  let pos := pos + 2 in
  if notNil err then
    Ret (klass, pos, Some (cfe "error obtaining index for class name"))
  else if (index <? 1) || (index >? len (cpIndex klass) - 1) then
    Ret (klass, pos, Some (cfe "invalid index into CP for class name"))
  else
    pointedToClassRef ← sliceAt (cpIndex klass) index;
    if negb (entryType pointedToClassRef =? Tag.ClassRef) then
      Ret (klass, pos, Some (cfe "invalid entry for class name"))
    else
      classNameIndex ← sliceAt (classRefs klass) (slot pointedToClassRef);
      named ← sliceAt (cpIndex klass) classNameIndex;
      if negb (entryType named =? Tag.UTF8) then
        Ret (klass, pos,
             Some (cfe "error classRef in CP does not point to a UTF-8 string"))
      else
        let utf8Index := slot named in
        className ← sliceAt (utf8Refs klass) utf8Index;
        Ret (set_className className klass, pos, None).

Definition parseSuperClassName (bytes : list byte) (loc : Z)
           (klass : parsedClass)
  : outcome (parsedClass * Z * option error) :=
  let pos := loc in
  let '(index, err) := intFrom2Bytes bytes (pos + 1) in
  let pos := pos + 2 in
  if notNil err then
    Ret (klass, pos, Some (cfe "error obtaining index for superclass name"))
  else if (index <? 1) || (index >? len (cpIndex klass) - 1) then
    Ret (klass, pos, Some (cfe "invalid index into CP for superclass name"))
  else
    pointedToClassRef ← sliceAt (cpIndex klass) index;
    if negb (entryType pointedToClassRef =? Tag.ClassRef) then
      Ret (klass, pos, Some (cfe "invalid entry for superclass name"))
    else
      classNameIndex ← sliceAt (classRefs klass) (slot pointedToClassRef);
      named ← sliceAt (cpIndex klass) classNameIndex;
      if negb (entryType named =? Tag.UTF8) then
        Ret (klass, pos,
             Some (cfe "error classRef in CP does not point to a UTF-8 string"))
      else
        let utf8Index := slot named in
        superClassName ← sliceAt (utf8Refs klass) utf8Index;
        if String.eqb superClassName ""
           && negb (String.eqb (className klass) "java/lang/Object")
        then Ret (klass, pos,
                  Some (cfe "Invaild empty string for superclass name"))
        else Ret (set_superClass superClassName klass, pos, None).

(** ** [parse]

    [parseConstantPool] is declared in a file that is not among the
    sources; [parse] is embedded over any such function.  It receives the
    buffer and the class under construction and returns the class with its
    constant pool filled in, the offset reached and an error or nil. *)
Section Parse.
Context `{Globals}.
Variable parseConstantPool :
  list byte -> parsedClass -> outcome (parsedClass * Z * option error).

Definition parse (rawBytes : list byte)
  : outcome (parsedClass * option error) :=
  let pClass := emptyClass in
  match parseMagicNumber rawBytes with
  | Some err => Ret (pClass, Some err)
  | None =>
  match parseJavaVersionNumber rawBytes pClass with
  | (pClass, Some err) => Ret (pClass, Some err)
  | (pClass, None) =>
  match getConstantPoolCount rawBytes pClass with
  | (pClass, Some err) => Ret (pClass, Some err)
  | (pClass, None) =>
  '(pClass, pos, err) ← parseConstantPool rawBytes pClass;
  if notNil err || (pos <? 10) then Ret (pClass, err)
  else
  match parseAccessFlags rawBytes pos pClass with
  | (pClass, _, Some err) => Ret (pClass, Some err)
  | (pClass, pos, None) =>
  '(pClass, pos, err) ← parseClassName rawBytes pos pClass;
  match err with
  | Some err => Ret (pClass, Some err)
  | None =>
  '(pClass, pos, err) ← parseSuperClassName rawBytes pos pClass;
  match err with
  | Some err => Ret (pClass, Some err)
  | None => Ret (pClass, None)
  end end end end end end.
End Parse.

(** ** A constant-pool parser *)

Definition push_entry (tag slot : Z) (k : parsedClass) : parsedClass :=
  set_cpIndex (cpIndex k ++ [mkIndexEntry tag slot]) k.

Definition push_utf8 (content : string) (k : parsedClass) : parsedClass :=
  push_entry Tag.UTF8 (len (utf8Refs k))
             (set_utf8Refs (utf8Refs k ++ [content]) k).

Definition push_classRef (index : Z) (k : parsedClass) : parsedClass :=
  push_entry Tag.ClassRef (len (classRefs k))
             (set_classRefs (classRefs k ++ [index]) k).

Definition push_constant (tag : Z) (c : cpConstant) (k : parsedClass)
  : parsedClass :=
  push_entry tag (len (constants k)) (set_constants (constants k ++ [c]) k).

(** Readers that advance an offset [pos] naming the last byte consumed. *)
Definition rd1 (bytes : list byte) (pos : Z) : option (Z * Z) :=
  if pos + 1 <? 0 then None
  else b ← bytes !! Z.to_nat (pos + 1); Some (byteZ b, pos + 1).

Definition rd2 (bytes : list byte) (pos : Z) : option (Z * Z) :=
  match intFrom2Bytes bytes (pos + 1) with
  | (v, None) => Some (v, pos + 2)
  | (_, Some _) => None
  end.

Definition rd4 (bytes : list byte) (pos : Z) : option (Z * Z) :=
  match intFrom4Bytes bytes (pos + 1) with
  | (v, None) => Some (v, pos + 4)
  | (_, Some _) => None
  end.

Definition rd8 (bytes : list byte) (pos : Z) : option (Z * Z) :=
  '(hi, pos) ← rd4 bytes pos;
  '(lo, pos) ← rd4 bytes pos;
  Some (hi * 2 ^ 32 + lo, pos).

Definition rd2x2 (bytes : list byte) (pos : Z) : option (Z * Z * Z) :=
  '(a, pos) ← rd2 bytes pos;
  '(b, pos) ← rd2 bytes pos;
  Some (a, b, pos).

(** The payload of a tag other than UTF8 and ClassRef. *)
Definition decodeConstant (tag : Z) (bytes : list byte) (pos : Z)
  : option (option (cpConstant * Z)) :=
  if tag =? Tag.IntConst then
    Some ('(v, p) ← rd4 bytes pos; Some (KInt v, p))
  else if tag =? Tag.FloatConst then
    Some ('(v, p) ← rd4 bytes pos; Some (KFloat v, p))
  else if tag =? Tag.LongConst then
    Some ('(v, p) ← rd8 bytes pos; Some (KLong v, p))
  else if tag =? Tag.DoubleConst then
    Some ('(v, p) ← rd8 bytes pos; Some (KDouble v, p))
  else if tag =? Tag.StringConst then
    Some ('(v, p) ← rd2 bytes pos; Some (KString v, p))
  else if tag =? Tag.FieldRef then
    Some ('(a, b, p) ← rd2x2 bytes pos; Some (KFieldRef a b, p))
  else if tag =? Tag.MethodRef then
    Some ('(a, b, p) ← rd2x2 bytes pos; Some (KMethodRef a b, p))
  else if tag =? Tag.Interface then
    Some ('(a, b, p) ← rd2x2 bytes pos; Some (KInterfaceRef a b, p))
  else if tag =? Tag.NameAndType then
    Some ('(a, b, p) ← rd2x2 bytes pos; Some (KNameAndType a b, p))
  else if tag =? Tag.MethodHandle then
    Some ('(a, p) ← rd1 bytes pos; '(b, p) ← rd2 bytes p;
          Some (KMethodHandle a b, p))
  else if tag =? Tag.MethodType then
    Some ('(v, p) ← rd2 bytes pos; Some (KMethodType v, p))
  else if tag =? Tag.DynamicEntry then
    Some ('(a, b, p) ← rd2x2 bytes pos; Some (KDynamic a b, p))
  else if tag =? Tag.InvokeDynamicEntry then
    Some ('(a, b, p) ← rd2x2 bytes pos; Some (KInvokeDynamic a b, p))
  else if tag =? Tag.Module_ then
    Some ('(v, p) ← rd2 bytes pos; Some (KModule v, p))
  else if tag =? Tag.Package then
    Some ('(v, p) ← rd2 bytes pos; Some (KPackage v, p))
  else None.

Definition truncated : error := cfe "constant pool entry exceeds the file".

(** One entry starting after offset [pos]: the class with the entry
    appended, the offset of the entry's last byte, and the number of index
    slots the entry occupies. *)
Definition parseCPEntry (bytes : list byte) (pos : Z) (klass : parsedClass)
  : parsedClass * Z * Z * option error :=
  match rd1 bytes pos with
  | None => (klass, pos, 1, Some truncated)
  | Some (tag, pos) =>
      if tag =? Tag.UTF8 then
        match rd2 bytes pos with
        | None => (klass, pos, 1, Some truncated)
        | Some (n, pos) =>
            if len bytes <? pos + 1 + n then (klass, pos, 1, Some truncated)
            else
              let raw := take (Z.to_nat n) (drop (Z.to_nat (pos + 1)) bytes) in
              (push_utf8 (string_of_bytes raw) klass, pos + n, 1, None)
        end
      else if tag =? Tag.ClassRef then
        match rd2 bytes pos with
        | None => (klass, pos, 1, Some truncated)
        | Some (index, pos) => (push_classRef index klass, pos, 1, None)
        end
      else
        match decodeConstant tag bytes pos with
        | None => (klass, pos, 1, Some (cfe "invalid constant pool tag"))
        | Some None => (klass, pos, 1, Some truncated)
        | Some (Some (c, pos)) =>
            if (tag =? Tag.LongConst) || (tag =? Tag.DoubleConst) then
              (push_entry Tag.Dummy 0 (push_constant tag c klass),
               pos, 2, None)
            else (push_constant tag c klass, pos, 1, None)
        end
  end.

Fixpoint parseCPEntries (fuel : nat) (bytes : list byte) (i pos : Z)
         (klass : parsedClass) : parsedClass * Z * option error :=
  match fuel with
  | O => (klass, pos, None)
  | S fuel' =>
      if i >? cpCount klass - 1 then (klass, pos, None)
      else match parseCPEntry bytes pos klass with
           | (klass', pos', used, None) =>
               parseCPEntries fuel' bytes (i + used) pos' klass'
           | (klass', pos', _, Some err) => (klass', pos', Some err)
           end
  end.

(** Modelled from the spec: [parseConstantPool], whose source is missing.
    "For indices 1..count-1, dispatch on the 1-byte tag and decode the
    payload [...].  After a Long or Double, skip the next slot (it is a
    placeholder).  Each payload is appended to its typed backing sequence;
    the primary index stores (tag, slot-in-backing-sequence)"; "an
    unrecognized CP tag is a ClassFormatError".  Slot 0 of the primary
    index is the reserved entry.  Payload widths are those of the
    class-file format.  The offset handed back names the last byte of the
    last entry, which is the convention of the callers in [parse] (they
    read the next item at [pos+1]); the scan starts after byte 9, the
    second byte of the count. *)
Definition parseConstantPool (bytes : list byte) (klass : parsedClass)
  : outcome (parsedClass * Z * option error) :=
  Ret (parseCPEntries (Z.to_nat (cpCount klass)) bytes 1 9
                      (push_entry Tag.Dummy 0 klass)).

End Parser.

(* ===================================================================== *)
(** * The method area records (classes.go) *)
(* ===================================================================== *)

(** The structure of many attributes; the content is the raw bytes. *)
Record Attr : Type := mkAttr {
  AttrName : Z;
  AttrSize : Z;
  AttrContent : list byte
}.

Record CodeException : Type := mkCodeException {
  StartPc : Z;
  EndPc : Z;
  HandlerPc : Z;
  CatchType : Z
}.

Record BootstrapMethod : Type := mkBootstrapMethod {
  MethodRef : Z;
  Args : list Z
}.

Record CpEntry : Type := mkCpEntry { Type_ : Z; Slot : Z }.

Record FieldRefEntry : Type :=
  mkFieldRefEntry { FieldRef_ClassIndex : Z; FieldRef_NameAndType : Z }.
Record MethodRefEntry : Type :=
  mkMethodRefEntry { MethodRef_ClassIndex : Z; MethodRef_NameAndType : Z }.
Record InterfaceRefEntry : Type :=
  mkInterfaceRefEntry { InterfaceRef_ClassIndex : Z;
                        InterfaceRef_NameAndType : Z }.
Record NameAndTypeEntry : Type :=
  mkNameAndTypeEntry { NameIndex : Z; DescIndex : Z }.
Record MethodHandleEntry : Type :=
  mkMethodHandleEntry { RefKind : Z; RefIndex : Z }.
Record DynamicEntry : Type :=
  mkDynamicEntry { Dynamic_BootstrapIndex : Z; Dynamic_NameAndType : Z }.
Record InvokeDynamicEntry : Type :=
  mkInvokeDynamicEntry { InvokeDynamic_BootstrapIndex : Z;
                         InvokeDynamic_NameAndType : Z }.

(** The constant pool of a loaded class: the primary index and one typed
    backing slice per tag.  [float64] and [float32] payloads are kept as
    their bit patterns. *)
Record CPool : Type := mkCPool {
  CpIndex : list CpEntry;
  ClassRefs : list Z;
  Doubles : list Z;
  Dynamics : list DynamicEntry;
  FieldRefs : list FieldRefEntry;
  Floats : list Z;
  IntConsts : list Z;
  InterfaceRefs : list InterfaceRefEntry;
  InvokeDynamics : list InvokeDynamicEntry;
  LongConsts : list Z;
  MethodHandles : list MethodHandleEntry;
  MethodRefs : list MethodRefEntry;
  MethodTypes : list Z;
  NameAndTypes : list NameAndTypeEntry;
  Utf8Refs : list string
}.

Record AccessFlags : Type := mkAccessFlags {
  ClassIsPublic : bool;
  ClassIsFinal : bool;
  ClassIsSuper : bool;
  ClassIsInterface : bool;
  ClassIsAbstract : bool;
  ClassIsSynthetic : bool;
  ClassIsAnnotation : bool;
  ClassIsEnum : bool;
  ClassIsModule : bool
}.

Module Field.
Record t : Type := mk {
  AccessFlags : Z;
  Name : Z;
  Desc : Z;
  IsStatic : bool;
  Attributes : list Attr
}.
End Field.

Module CodeAttrib.
Record t : Type := mk {
  MaxStack : Z;
  MaxLocals : Z;
  Code : list byte;
  Exceptions : list CodeException;
  Attributes : list Attr
}.
End CodeAttrib.

Module ParamAttrib.
Record t : Type := mk {
  Name : string;
  AccessFlags : Z
}.
End ParamAttrib.

(** The methods of a class, including the constructors. *)
Module Method.
Record t : Type := mk {
  AccessFlags : Z;
  Name : Z;
  Desc : Z;
  CodeAttr : CodeAttrib.t;
  Attributes : list Attr;
  Exceptions : list Z;
  Parameters : list ParamAttrib.t;
  Deprecated : bool
}.
End Method.

(** [MethodTable] is a [map[string]*Method] whose pointers refer to the
    entries of the class's own methods; it is a finite map to the method
    records. *)
Module ClData.
Record t : Type := mk {
  Name : string;
  Superclass : string;
  Module_ : string;
  Pkg : string;
  Interfaces : list Z;
  Fields : list Field.t;
  MethodTable : gmap string Method.t;
  Methods : list Method.t;
  Attributes : list Attr;
  SourceFile : string;
  Bootstraps : list BootstrapMethod;
  CP : CPool;
  Access : AccessFlags;
  ClInit : Z
}.
End ClData.

(** The class as stored in the method area; [Data] is a pointer and is nil
    in the zero value. *)
Record Klass : Type := mkKlass {
  Status : ascii;
  Loader : string;
  Data : option ClData.t
}.

(** ** Method-table entries

    Neither [MTentry] nor its two payloads are declared in the sources at
    hand; their fields are those of the composite literals in
    [FetchMethodAndCP] ([JmEntry], [MTentry]) and in [Load_Lang_Class]
    ([GMeth]).  [Cp] is a pointer to the owning class's pool and is
    rendered as the pool it points to.  A native function reference is
    rendered as the name of the Go function. *)
Record JmEntry : Type := mkJmEntry {
  Jm_AccessFlags : Z;
  Jm_MaxStack : Z;
  Jm_MaxLocals : Z;
  Jm_Code : list byte;
  Jm_Exceptions : list CodeException;
  Jm_attribs : list Attr;
  Jm_params : list ParamAttrib.t;
  Jm_deprecated : bool;
  Jm_Cp : CPool
}.

Inductive GFunc : Type :=
| Go_getPrimitiveClass
| Go_getAssertionsEnabledStatus
| Go_justReturn
| Go_other (name : string).

Record GMeth : Type := mkGMeth {
  ParamSlots : Z;
  GFunction : GFunc
}.

(** The dynamic value of the [Meth] interface field. *)
Inductive MData : Type :=
| JMeth (j : JmEntry)
| GMethod (g : GMeth).

Record MTentry : Type := mkMTentry {
  Meth : option MData;
  MType : ascii
}.

(** [MTentry{}], which is also what a Go map yields for an absent key. *)
Definition MTentry_zero : MTentry := {| Meth := None; MType := Ascii.zero |}.

(** ** Values passed to and returned by native functions ([interface{}]) *)

(** A Java string object as far as [getPrimitiveClass] looks at it: through
    [object.GetGoStringFromJavaStringPtr], a function of another package.
    Only non-nil object references are rendered, and the conversion is
    taken to return; nothing is stated below about a nil reference or
    about a conversion that fails. *)
Record Object : Type := mkObject { goString : string }.

Definition GetGoStringFromJavaStringPtr (o : Object) : string := goString o.

Inductive iface : Type :=
| INil
| IInt64 (x : Z)
| IObject (o : Object)
| IKlass (k : option Klass)
| IError (e : error).

(** ** The statics store

    [getAssertionsEnabledStatus] reads [Statics[key].Value.(int64)]: it is
    written against a store that maps a name to a record whose value is
    held in one interface-typed field [Value].  (statics.go at hand keeps
    the integer in a field [ValueInt] of type [int64]; an entry whose
    [Value] holds an [int64] stands for it.)  The zero value of the record
    has a nil [Value]. *)
Record Static : Type := mkStatic {
  Static_Type : string;
  Value : iface
}.

Definition Static_zero : Static := {| Static_Type := ""; Value := INil |}.

(* ===================================================================== *)
(** * The virtual machine state and its effects *)
(* ===================================================================== *)

Inductive logLevel : Type := SEVERE | WARNING | FINEST.

Inductive exitCode : Type := JVM_EXCEPTION | APP_EXCEPTION.

(** The process-wide stores the functions under study read and write,
    together with what they send to the logger and to [shutdown.Exit]. *)
Record VM : Type := mkVM {
  MethArea : gmap string Klass;
  MTable : gmap string MTentry;
  Statics : gmap string Static;
  logged : list (string * logLevel);
  exitRequests : list exitCode
}.

(** How a call ends: it returns, the process exits, or Go panics. *)
Inductive result (A : Type) : Type :=
| Done (a : A)
| Exited (c : exitCode)
| Panicked.
Arguments Done {A} a.
Arguments Exited {A} c.
Arguments Panicked {A}.

Definition M (A : Type) : Type := VM -> result A * VM.

#[export] Instance M_ret : MRet M := fun A a s => (Done a, s).
#[export] Instance M_bind : MBind M := fun A B f m s =>
  match m s with
  | (Done a, s') => f a s'
  | (Exited c, s') => (Exited c, s')
  | (Panicked, s') => (Panicked, s')
  end.

Definition panic {A} : M A := fun s => (Panicked, s).

(** Modelled from the spec: [log.Log(msg, level)], the logger, "a sink
    accepting a severity and a message"; the error it returns is discarded
    by every caller. *)
Definition Log (m : string) (l : logLevel) : M unit :=
  fun s => (Done tt, mkVM (MethArea s) (MTable s) (Statics s)
                          (logged s ++ [(m, l)]) (exitRequests s)).

(** Modelled from the spec: [MethAreaFetch(name)], declared outside the
    sources at hand: "fetch(name) -> LoadedClass | nothing", a lookup in
    the method area; it yields the class stored under the name, or nil. *)
Definition MethAreaFetch (name : string) : M (option Klass) :=
  fun s => (Done (MethArea s !! name), s).

(** [MTable[key]] and [MTable[key] = e]. *)
Definition MTableGet (key : string) : M MTentry :=
  fun s => (Done (default MTentry_zero (MTable s !! key)), s).

Definition MTablePut (key : string) (e : MTentry) : M unit :=
  fun s => (Done tt, mkVM (MethArea s) (<[key := e]> (MTable s)) (Statics s)
                          (logged s) (exitRequests s)).

Definition StaticsGet (key : string) : M Static :=
  fun s => (Done (default Static_zero (Statics s !! key)), s).

(** The collaborators of the functions under study that live in other
    files: the class loader, the method area's wait primitive and the
    shutdown service.  The loader is rendered by what its callers here
    use of it once it has returned: the method area it leaves and the
    error or nil it hands back.  What the loader may itself send to the
    logger or to the shutdown service is not part of this rendering, so
    statements about a failed load speak of what the callers add after
    the loader has returned.
    - [loadClass name area] is [LoadClassFromNameOnly]: it yields the
      method area after the load and an error or nil;
    - [waitStatus name area] is [WaitForClassStatus]: an error or nil;
    - [testHarness] tells whether a test harness intercepts
      [shutdown.Exit], in which case the call returns to its caller
      instead of ending the process. *)
Class Collaborators : Type := {
  loadClass : string -> gmap string Klass -> gmap string Klass * option error;
  waitStatus : string -> gmap string Klass -> option error;
  testHarness : bool
}.

Section Effects.
Context `{Collaborators}.

Definition LoadClassFromNameOnly (name : string) : M (option error) :=
  fun s => let '(area, err) := loadClass name (MethArea s) in
           (Done err, mkVM area (MTable s) (Statics s)
                           (logged s) (exitRequests s)).

Definition WaitForClassStatus (name : string) : M (option error) :=
  fun s => (Done (waitStatus name (MethArea s)), s).

(** Modelled from the spec: [shutdown.Exit(code)], which "terminates the
    process with a categorized exit code when [...] no test harness is
    intercepting"; with a harness the call returns. *)
Definition shutdownExit (c : exitCode) : M unit :=
  fun s =>
    let s' := mkVM (MethArea s) (MTable s) (Statics s)
                   (logged s) (exitRequests s ++ [c]) in
    if testHarness then (Done tt, s') else (Exited c, s').
End Effects.

Definition liftO {A} (o : outcome A) : M A :=
  fun s => match o with
           | Ret a => (Done a, s)
           | Panic => (Panicked, s)
           end.

(* ===================================================================== *)
(** * Method resolution and constant-pool access (classes.go) *)
(* ===================================================================== *)

(** The error message when main() cannot be found. *)
Definition noMainMessage (className : string) : string :=
  "Error: main() method not found in class " +:+ className +:+ nl +:+
  "Please define the main method as:" +:+ nl +:+
  "   public static void main(String[] args)".

Definition noMainError (className : string) : M unit :=
  Log (noMainMessage className) SEVERE.

(** The bytecode entry built from a method of a loaded class. *)
Definition jmEntryOf (m : Method.t) (cp : CPool) : JmEntry :=
  {| Jm_AccessFlags := Method.AccessFlags m;
     Jm_MaxStack := CodeAttrib.MaxStack (Method.CodeAttr m);
     Jm_MaxLocals := CodeAttrib.MaxLocals (Method.CodeAttr m);
     Jm_Code := CodeAttrib.Code (Method.CodeAttr m);
     Jm_Exceptions := CodeAttrib.Exceptions (Method.CodeAttr m);
     Jm_attribs := CodeAttrib.Attributes (Method.CodeAttr m);
     Jm_params := Method.Parameters m;
     Jm_deprecated := Method.Deprecated m;
     Jm_Cp := cp |}.

(** The test on the entry read from [MTable]: with a non-nil [Meth], a type
    of 'J' or 'G' makes [FetchMethodAndCP] return at once. *)
Definition foundInMTable (methEntry : MTentry) : option MTentry :=
  match Meth methEntry with
  | Some meth =>
      if Ascii.eqb (MType methEntry) "J"
      then Some {| Meth := Some meth; MType := "J" |}
      else if Ascii.eqb (MType methEntry) "G"
      then Some {| Meth := Some meth; MType := "G" |}
      else None
  | None => None
  end.

Definition methFQN (className methName methType : string) : string :=
  className +:+ "." +:+ methName +:+ methType.

Section Resolver.
Context `{Collaborators}.

Definition FetchMethodAndCP (className methName methType : string)
  : M (MTentry * option error) :=
  let origClassName := className in
  (* has the className been loaded? If not, then load it now. *)
  loaded ← MethAreaFetch className;
  (if notNil loaded then mret tt
   else
     err ← LoadClassFromNameOnly className;
     match err with
     | None => mret tt
     | Some err =>
         (if String.eqb methName "main"
          then noMainError origClassName;;
               shutdownExit JVM_EXCEPTION
          else mret tt);;
         Log ("FetchMethodAndCP: LoadClassFromNameOnly for " +:+ className
              +:+ " failed: " +:+ msg err) WARNING;;
         Log (msg err) SEVERE;;
         shutdownExit JVM_EXCEPTION
     end);;
  let methFQN := methFQN className methName methType in
  methEntry ← MTableGet methFQN;
  match foundInMTable methEntry with
  | Some found => mret (found, None)
  | None =>
  (* method is not in the MTable, so find it and put it there *)
  err ← WaitForClassStatus className;
  match err with
  | Some err =>
      let errMsg := "FetchMethodAndCP: " +:+ msg err in
      Log errMsg SEVERE;;
      shutdownExit JVM_EXCEPTION;;
      mret (MTentry_zero, Some (errorsNew errMsg))
  | None =>
  k ← MethAreaFetch className;
  match k with
  | None =>
      let errMsg := "FetchMethodAndCP: MethAreaFetch could not find class "
                    +:+ className in
      Log errMsg SEVERE;;
      shutdownExit JVM_EXCEPTION;;
      mret (MTentry_zero, Some (errorsNew errMsg))
  | Some k =>
  if String.eqb (Loader k) "" then
    let errMsg := "FetchMethodAndCP: Null Loader in className: "
                  +:+ className in
    Log errMsg SEVERE;;
    mret (MTentry_zero, Some (errorsNew errMsg))
  else
  match Data k with
  | None => panic
  | Some data =>
  let searchName := methName +:+ methType in
  match ClData.MethodTable data !! searchName with
  | Some m =>
      let jme := jmEntryOf m (ClData.CP data) in
      MTablePut methFQN {| Meth := Some (JMeth jme); MType := "J" |};;
      mret ({| Meth := Some (JMeth jme); MType := "J" |}, None)
  | None =>
      (* the superclasses are not visited: the ascent is commented out *)
      (if String.eqb methName "main"
       then noMainError origClassName
       else mret tt);;
      let msg := "FetchMethodAndCP: Found class " +:+ className
                 +:+ ", but it did not contain method: " +:+ methName in
      mret (MTentry_zero, Some (errorsNew msg))
  end end end end end.
End Resolver.

(** [FetchUTF8stringFromCPEntryNumber(cp, entry)]; [entry] is a [uint16]
    and the length of [cp.CpIndex] is converted to [uint16] before the
    comparison.  The two accesses [cp.CpIndex[entry]] and
    [cp.Utf8Refs[u.Slot]] are Go slice accesses. *)
Definition FetchUTF8stringFromCPEntryNumber (cp : CPool) (entry : Z)
  : M string :=
  if (entry <? 1) || (entry >=? uint16 (len (CpIndex cp))) then
    Log ("FetchUTF8stringFromCPEntryNumber: entry=" +:+ Itoa entry +:+
         " is out of bounds(1, " +:+ Itoa (uint16 (len (CpIndex cp))) +:+ ")")
        SEVERE;;
    mret ""
  else
    u ← liftO (sliceAt (CpIndex cp) entry);
    if negb (Type_ u =? Tag.UTF8) then
      Log ("FetchUTF8stringFromCPEntryNumber: cp.CpIndex[" +:+ Itoa entry +:+
           "].Type=" +:+ Itoa (Type_ u) +:+ ", expected UTF8") SEVERE;;
      mret ""
    else liftO (sliceAt (Utf8Refs cp) (Slot u)).

(* ===================================================================== *)
(** * Natives of java/lang/Class (javaLangClass.go, first part) *)
(* ===================================================================== *)

Section Natives.
Context `{Collaborators}.

(** [simpleClassLoadByName] checks the method area for the loaded class,
    and if it is not there, loads it and returns a pointer to it. *)
Definition simpleClassLoadByName (className : string)
  : M (option Klass * option error) :=
  alreadyLoaded ← MethAreaFetch className;
  match alreadyLoaded with
  | Some k => mret (Some k, None)
  | None =>
      err ← LoadClassFromNameOnly className;
      match err with
      | Some err =>
          let errClassName :=
            if String.eqb className "" then "<empty string>"
            else className in
          let errMsg :=
            "instantiateClass()-getPrimitivelass(): Failed to load class "
            +:+ errClassName in
          Log errMsg SEVERE;;
          Log (msg err) SEVERE;;
          shutdownExit APP_EXCEPTION;;
          mret (None, Some (errorsNew errMsg))
      | None =>
          k ← MethAreaFetch className;
          mret (k, None)
      end
  end.

(** The [switch] of [getPrimitiveClass]: the wrapper class to load for a
    descriptor word, or nothing for the [default] branch. *)
Definition wrapperOf (str : string) : option string :=
  if String.eqb str "boolean" then Some "java/lang/Boolean"
  else if String.eqb str "byte" then Some "java/lang/Byte"
  else if String.eqb str "char" then Some "java/lang/Character"
  else if String.eqb str "double" then Some "java/lang/Double"
  else if String.eqb str "float" then Some "java/lang/Float"
  else if String.eqb str "int" then Some "java/lang/Integer"
  else if String.eqb str "long" then Some "java/lang/Long"
  else if String.eqb str "short" then Some "java/lang/Short"
  else if String.eqb str "void" then Some "java/lang/Void"
  else None.

(** [getPrimitiveClass(params)]: [params[0]] must exist and hold a
    [*object.Object], else the type assertion panics. *)
Definition getPrimitiveClass (params : list iface) : M iface :=
  match params with
  | IObject primitive :: _ =>
      let str := GetGoStringFromJavaStringPtr primitive in
      '(k, err) ← match wrapperOf str with
                  | Some wrapper => simpleClassLoadByName wrapper
                  | None => mret (None, Some (errorsNew "urecognized primitive"))
                  end;
      match err with
      | None => mret (IKlass k)
      | Some _ =>
          let errMsg := "getPrimitiveClass() does not handle: " +:+ str in
          Log errMsg SEVERE;;
          mret (IError (errorsNew errMsg))
      end
  | _ => panic
  end.
End Natives.

(** [getAssertionsEnabledStatus(params)]: the stored value is asserted to be
    an [int64] (a panic otherwise, also for an absent entry, whose [Value]
    is nil) and subtracted from 1 in [int64] arithmetic. *)
Definition getAssertionsEnabledStatus (params : list iface) : M iface :=
  st ← StaticsGet "main.$assertionsDisabled";
  match Value st with
  | IInt64 x => mret (IInt64 (int64 (1 - x)))
  | _ => panic
  end.

(** [Load_Lang_Class]: the natives registered for java/lang/Class. *)
Definition Load_Lang_Class (MethodSignatures : gmap string GMeth)
  : gmap string GMeth :=
  <["java/lang/Class.registerNatives()V" :=
      {| ParamSlots := 0; GFunction := Go_justReturn |}]>
  (<["java/lang/Class.desiredAssertionStatus0()Z" :=
      {| ParamSlots := 1; GFunction := Go_getAssertionsEnabledStatus |}]>
  (<["java/lang/Class.desiredAssertionStatus()Z" :=
      {| ParamSlots := 0; GFunction := Go_getAssertionsEnabledStatus |}]>
  (<["java/lang/Class.getPrimitiveClass(Ljava/lang/String;)Ljava/lang/Class;" :=
      {| ParamSlots := 1; GFunction := Go_getPrimitiveClass |}]>
   MethodSignatures))).

(** The state with another method area. *)
Definition withMethArea (area : gmap string Klass) (s : VM) : VM :=
  mkVM area (MTable s) (Statics s) (logged s) (exitRequests s).

(** The well-formedness condition on a pool that
    [FetchUTF8stringFromCPEntryNumber] relies on without checking it: every
    entry of the primary index tagged UTF8 has its slot inside
    [Utf8Refs]. *)
Definition utf8SlotsInRange (cp : CPool) : Prop :=
  forall (i : nat) (u : CpEntry),
    CpIndex cp !! i = Some u -> Type_ u = Tag.UTF8 ->
    0 <= Slot u < len (Utf8Refs cp).

(** The descriptor words of the [switch] in [getPrimitiveClass], each with
    the wrapper class it names. *)
Definition primitiveWrappers : list (string * string) :=
  [("boolean", "java/lang/Boolean"); ("byte", "java/lang/Byte");
   ("char", "java/lang/Character"); ("double", "java/lang/Double");
   ("float", "java/lang/Float"); ("int", "java/lang/Integer");
   ("long", "java/lang/Long"); ("short", "java/lang/Short");
   ("void", "java/lang/Void")].

(* ===================================================================== *)
(** * Concrete inputs used by the examples below *)
(* ===================================================================== *)

Module Sample.
Import Parser.

(** Java 17: class files up to major version 61. *)
Definition java17 : Globals :=
  {| MaxJavaVersionRaw := 61; MaxJavaVersion := 17 |}.

(** Magic, version 0.61, and a constant-pool count of 2. *)
Definition countTwo : list byte :=
  [xca; xfe; xba; xbe; x00; x00; x00; x3d; x00; x02].

(** Magic, version 0.61, and a constant-pool count of 3. *)
Definition countThree : list byte :=
  [xca; xfe; xba; xbe; x00; x00; x00; x3d; x00; x03].

(** Magic and version 0.62. *)
Definition version62 : list byte :=
  [xca; xfe; xba; xbe; x00; x00; x00; x3e].

(** A class file whose this-class entry names the empty string and whose
    access flags are final and abstract at once:
    #1 ClassRef -> #2, #2 UTF8 (empty), #3 ClassRef -> #4, #4 UTF8 "A",
    flags 0x0410, this-class #1, super-class #3. *)
Definition namelessClass : list byte :=
  [xca; xfe; xba; xbe; x00; x00; x00; x3d; x00; x05;
   x07; x00; x02;
   x01; x00; x00;
   x07; x00; x04;
   x01; x00; x01; x41;
   x04; x10;
   x00; x01;
   x00; x03].

(** A class file named "B" with super-class "A":
    #1 ClassRef -> #2, #2 UTF8 "B", #3 ClassRef -> #4, #4 UTF8 "A",
    flags 0x0021, this-class #1, super-class #3. *)
Definition classB : list byte :=
  [xca; xfe; xba; xbe; x00; x00; x00; x3d; x00; x05;
   x07; x00; x02;
   x01; x00; x01; x42;
   x07; x00; x04;
   x01; x00; x01; x41;
   x00; x21;
   x00; x01;
   x00; x03].

(** A class file whose this-class ClassRef points at constant-pool index
    9, beyond the pool. *)
Definition danglingClassRef : list byte :=
  [xca; xfe; xba; xbe; x00; x00; x00; x3d; x00; x03;
   x07; x00; x09;
   x01; x00; x01; x41;
   x00; x21;
   x00; x01;
   x00; x01].

Definition pool (index : list CpEntry) (utf8 : list string) : CPool :=
  mkCPool index [] [] [] [] [] [] [] [] [] [] [] [] [] utf8.

(** Entry 1 is a UTF8 entry stored in slot 0. *)
Definition goodPool : CPool :=
  pool [mkCpEntry 0 0; mkCpEntry 1 0; mkCpEntry 7 0] ["Hello"].

(** Entry 1 is tagged UTF8 but there is no UTF8 string at all. *)
Definition badSlotPool : CPool :=
  pool [mkCpEntry 0 0; mkCpEntry 1 0] [].

(** A primary index of 65536 entries, all tagged UTF8 with slot 0. *)
Definition hugePool : CPool :=
  pool (repeat (mkCpEntry 1 0) (Z.to_nat 65536)) ["Hello"].

Definition emptyVM : VM := mkVM ∅ ∅ ∅ [] [].

(** Collaborators for the examples: a loader that finds nothing, a wait
    that succeeds, no test harness. *)
Definition world : Collaborators :=
  {| loadClass := fun name area =>
                    (area, Some (errorsNew ("class not found: " +:+ name)));
     waitStatus := fun _ _ => None;
     testHarness := false |}.

(** A loader that installs [java/lang/Integer]. *)
Definition integerKlass : Klass :=
  {| Status := "L"; Loader := "bootstrap"; Data := None |}.

Definition worldWithInteger : Collaborators :=
  {| loadClass := fun name area =>
                    if String.eqb name "java/lang/Integer"
                    then (<[name := integerKlass]> area, None)
                    else (area, Some (errorsNew ("class not found: "
                                                  +:+ name)));
     waitStatus := fun _ _ => None;
     testHarness := false |}.

Definition noFlags : AccessFlags :=
  mkAccessFlags false false false false false false false false false.

Definition someMethod : Method.t :=
  Method.mk 1 5 6 (CodeAttrib.mk 1 1 [xb1] [] []) [] [] [] false.

Definition classData (name super : string)
           (methods : gmap string Method.t) : ClData.t :=
  ClData.mk name super "" "" [] [] methods [] [] "" []
            (pool [] []) noFlags 0.

Definition loadedClass (name super : string)
           (methods : gmap string Method.t) : Klass :=
  {| Status := "L"; Loader := "bootstrap";
     Data := Some (classData name super methods) |}.

(** [Parent] declares [toString()Ljava/lang/String;] and a [main];
    [Child] extends [Parent] and declares nothing. *)
Definition Parent : Klass :=
  loadedClass "Parent" "java/lang/Object"
    (<["toString()Ljava/lang/String;" := someMethod]>
     (<["main([Ljava/lang/String;)V" := someMethod]> ∅)).

Definition Child : Klass := loadedClass "Child" "Parent" ∅.

Definition family : VM :=
  mkVM (<["Child" := Child]> (<["Parent" := Parent]> ∅)) ∅ ∅ [] [].

(** A method table holding the native [getPrimitiveClass] of
    java/lang/Class, whose class is loaded. *)
Definition nativeKey : string :=
  "java/lang/Class.getPrimitiveClass(Ljava/lang/String;)Ljava/lang/Class;".

Definition nativeEntry : MTentry :=
  {| Meth := Some (GMethod (mkGMeth 1 Go_getPrimitiveClass)); MType := "G" |}.

Definition withNative : VM :=
  mkVM (<["java/lang/Class" :=
          loadedClass "java/lang/Class" "java/lang/Object"
            (<["getPrimitiveClass(Ljava/lang/String;)Ljava/lang/Class;"
               := someMethod]> ∅)]> ∅)
       (<[nativeKey := nativeEntry]> ∅) ∅ [] [].

Definition assertionsStore (x : Z) : VM :=
  mkVM ∅ ∅ (<["main.$assertionsDisabled" := mkStatic "Z" (IInt64 x)]> ∅)
       [] [].
End Sample.

(* ===================================================================== *)
(** * Conditions and inputs for the further properties *)
(* ===================================================================== *)

(** A parsed constant pool on which the accesses that [parseClassName] and
    [parseSuperClassName] make without a range check stay in range: the
    slot of every ClassRef entry lies inside [classRefs] and holds an index
    inside the primary index, and the slot of every UTF8 entry lies inside
    [utf8Refs]. *)
Definition poolLinked (k : Parser.parsedClass) : Prop :=
  (forall (i : nat) (e : Parser.cpEntry),
      Parser.cpIndex k !! i = Some e ->
      Parser.entryType e = Tag.ClassRef ->
      exists target,
        0 <= Parser.slot e
        /\ Parser.classRefs k !! Z.to_nat (Parser.slot e) = Some target
        /\ 0 <= target < len (Parser.cpIndex k))
  /\ (forall (i : nat) (e : Parser.cpEntry),
         Parser.cpIndex k !! i = Some e ->
         Parser.entryType e = Tag.UTF8 ->
         0 <= Parser.slot e < len (Parser.utf8Refs k)).

(** The this-class or super-class index [index] of a class file resolves
    to the string [name] in the pool of [k]: it points at a ClassRef entry
    whose slot in [classRefs] points at a UTF8 entry whose slot in
    [utf8Refs] holds [name]. *)
Definition resolvesTo (k : Parser.parsedClass) (index : Z) (name : string)
  : Prop :=
  exists ref target named,
    0 <= index /\ Parser.cpIndex k !! Z.to_nat index = Some ref
    /\ Parser.entryType ref = Tag.ClassRef
    /\ 0 <= Parser.slot ref
    /\ Parser.classRefs k !! Z.to_nat (Parser.slot ref) = Some target
    /\ 0 <= target /\ Parser.cpIndex k !! Z.to_nat target = Some named
    /\ Parser.entryType named = Tag.UTF8
    /\ 0 <= Parser.slot named
    /\ Parser.utf8Refs k !! Z.to_nat (Parser.slot named) = Some name.

(** The class that [parse] hands to the constant-pool parser: the zero
    class after the version and the constant-pool count have been
    recorded. *)
Definition handedToPool `{Globals} (raw : list byte) : Parser.parsedClass :=
  fst (Parser.getConstantPoolCount raw
         (fst (Parser.parseJavaVersionNumber raw Parser.emptyClass))).

(** The state with another method table. *)
Definition withMTable (table : gmap string MTentry) (s : VM) : VM :=
  mkVM (MethArea s) table (Statics s) (logged s) (exitRequests s).


Module More.
Import Parser.

(** The magic number alone. *)
Definition magicOnly : list byte := [xca; xfe; xba; xbe].

(** The class file "B extends A" once its pool has been parsed (the pool
    ends at offset 23; flags, this-class #1 and super-class #3 follow). *)
Definition poolB : parsedClass :=
  mkParsedClass 61 5
    [mkIndexEntry 0 0; mkIndexEntry 7 0; mkIndexEntry 1 0;
     mkIndexEntry 7 1; mkIndexEntry 1 1]
    [2; 4] ["B"; "A"] [] 0
    false false false false false false false false false "" "".

(** java/lang/Object: its super-class index resolves to the empty
    string. *)
Definition poolObject : parsedClass :=
  mkParsedClass 61 5
    [mkIndexEntry 0 0; mkIndexEntry 7 0; mkIndexEntry 1 0;
     mkIndexEntry 7 1; mkIndexEntry 1 1]
    [2; 4] ["java/lang/Object"; ""] [] 0
    false false false false false false false false false
    "java/lang/Object" "".

(** A harness intercepts the exit; the loader finds nothing. *)
Definition harness : Collaborators :=
  {| loadClass := fun name area =>
                    (area, Some (errorsNew ("class not found: " +:+ name)));
     waitStatus := fun _ _ => None;
     testHarness := true |}.

(** The native [getPrimitiveClass] is registered in the method table while
    java/lang/Class is not in the method area. *)
Definition nativeOnly : VM :=
  mkVM ∅ (<[Sample.nativeKey := Sample.nativeEntry]> ∅) ∅ [] [].


End More.

(* ===================================================================== *)
(** * Properties of the parser *)
(* ===================================================================== *)

Module ParserFacts.
Import Parser.

Lemma byteZ_bounds (b : byte) : 0 <= byteZ b < 256.
Proof.
  unfold byteZ. pose proof (Byte.to_N_bounded b) as Hb. lia.
Qed.

Lemma intFrom2Bytes_error_kind bytes pos v e :
  intFrom2Bytes bytes pos = (v, Some e) -> kind e = ClassFormatError.
Proof.
  unfold intFrom2Bytes.
  destruct (_ || _); [intros [= _ <-]; reflexivity |].
  destruct (bytes !! _); [| intros [= _ <-]; reflexivity].
  destruct (bytes !! _); [intros [= _ ?]; discriminate |].
  intros [= _ <-]; reflexivity.
Qed.

Lemma intFrom2Bytes_range bytes pos v :
  intFrom2Bytes bytes pos = (v, None) -> 0 <= v < 65536.
Proof.
  unfold intFrom2Bytes.
  destruct (_ || _); [discriminate |].
  destruct (bytes !! _) as [hi|]; [| discriminate].
  destruct (bytes !! _) as [lo|]; [| discriminate].
  intros [= <-].
  pose proof (byteZ_bounds hi). pose proof (byteZ_bounds lo). lia.
Qed.

Lemma parseMagicNumber_error_kind bytes e :
  parseMagicNumber bytes = Some e -> kind e = ClassFormatError.
Proof.
  unfold parseMagicNumber.
  destruct (len bytes <? 4); [intros [= <-]; reflexivity |].
  destruct (_ || _); [intros [= <-]; reflexivity | discriminate].
Qed.

Section Version.
Context `{Globals}.

Lemma parseJavaVersionNumber_error_kind bytes klass klass' e :
  parseJavaVersionNumber bytes klass = (klass', Some e) ->
  kind e = ClassFormatError.
Proof.
  unfold parseJavaVersionNumber.
  destruct (intFrom2Bytes bytes 6) as [v [e0|]] eqn:Hrd.
  - intros [= _ <-]. eapply intFrom2Bytes_error_kind; eassumption.
  - destruct (v >? MaxJavaVersionRaw); intros [= _ <-] || intros [=].
    reflexivity.
Qed.

(** C5, as amended: a major version above [MaxJavaVersionRaw] fails the
    version step, and [parse] with it, with a [ClassFormatError] whose
    text is "Jacobin supports only Java versions through Java N"; a
    major version up to and including [MaxJavaVersionRaw] passes the
    step, which records it in the class. *)
Theorem version_gate bytes klass v :
  intFrom2Bytes bytes 6 = (v, None) ->
  let refusal := cfe ("Jacobin supports only Java versions through Java "
                      +:+ Itoa MaxJavaVersion) in
  (MaxJavaVersionRaw < v ->
     parseJavaVersionNumber bytes klass = (klass, Some refusal)
     /\ kind refusal = ClassFormatError
     /\ forall pcp, parseMagicNumber bytes = None ->
                    parse pcp bytes = Ret (emptyClass, Some refusal))
  /\ (v <= MaxJavaVersionRaw ->
        parseJavaVersionNumber bytes klass
        = (set_javaVersion v klass, None)
        /\ javaVersion (set_javaVersion v klass) = v).
Proof.
  intros Hrd refusal. split.
  - intros Hgt.
    assert (Hstep : forall k,
               parseJavaVersionNumber bytes k = (k, Some refusal)).
    { intros k. unfold parseJavaVersionNumber. rewrite Hrd.
      destruct (Z.gtb_spec v MaxJavaVersionRaw); [reflexivity | lia]. }
    split; [apply Hstep |]. split; [reflexivity |].
    intros pcp Hmagic. unfold parse. rewrite Hmagic, Hstep. reflexivity.
  - intros Hle. unfold parseJavaVersionNumber. rewrite Hrd.
    destruct (Z.gtb_spec v MaxJavaVersionRaw); [lia |].
    split; [reflexivity |]. destruct klass; reflexivity.
Qed.
End Version.

(** C5, witness: versions 61 and 62 against a maximum of 61. *)
Lemma version_gate_witness :
  parseJavaVersionNumber (H := Sample.java17) Sample.countTwo emptyClass
  = (set_javaVersion 61 emptyClass, None)
  /\ parseJavaVersionNumber (H := Sample.java17) Sample.version62 emptyClass
     = (emptyClass,
        Some (cfe "Jacobin supports only Java versions through Java 17")).
Proof.
  split.
  - apply (version_gate (H := Sample.java17) Sample.countTwo emptyClass 61).
    + reflexivity.
    + simpl. lia.
  - apply (version_gate (H := Sample.java17) Sample.version62 emptyClass 62).
    + reflexivity.
    + simpl. lia.
Defined.

(** C5, counterexample: with a maximum of 61, a class file of major
    version 62 is refused with an error of the kind [ClassFormatError],
    not of the kind [UnsupportedClassVersion]. *)
Lemma version_gate_not_UnsupportedClassVersion :
  intFrom2Bytes Sample.version62 6 = (62, None)
  /\ exists e,
      parse (H := Sample.java17) parseConstantPool Sample.version62
      = Ret (emptyClass, Some e)
      /\ kind e = ClassFormatError
      /\ kind e <> UnsupportedClassVersion.
Proof.
  split; [reflexivity |].
  eexists. split; [reflexivity |]. split; [reflexivity | discriminate].
Qed.

(** C4, as amended: once the 2-byte count at offset 8 has been read, the
    count check fails with the CP-size error exactly when the count is at
    most 2 (a count of 2 is refused); a count of 3 or more is accepted and
    recorded. *)
Theorem getConstantPoolCount_threshold bytes klass count :
  intFrom2Bytes bytes 8 = (count, None) ->
  (count <= 2 ->
     getConstantPoolCount bytes klass
     = (klass, Some (cfe ("Invalid number of entries in constant pool: "
                          +:+ Itoa count))))
  /\ (2 < count ->
        getConstantPoolCount bytes klass = (set_cpCount count klass, None)
        /\ cpCount (set_cpCount count klass) = count).
Proof.
  intros Hrd. unfold getConstantPoolCount. rewrite Hrd. simpl.
  split; intros Hc.
  - destruct (Z.leb_spec count 2); [reflexivity | lia].
  - destruct (Z.leb_spec count 2); [lia |].
    split; [reflexivity |]. destruct klass; reflexivity.
Qed.

(** C4, witness: counts 2 and 3. *)
Lemma getConstantPoolCount_threshold_witness :
  getConstantPoolCount Sample.countTwo emptyClass
  = (emptyClass,
     Some (cfe "Invalid number of entries in constant pool: 2"))
  /\ getConstantPoolCount Sample.countThree emptyClass
     = (set_cpCount 3 emptyClass, None).
Proof.
  split.
  - apply (getConstantPoolCount_threshold Sample.countTwo emptyClass 2).
    + reflexivity.
    + lia.
  - apply (getConstantPoolCount_threshold Sample.countThree emptyClass 3).
    + reflexivity.
    + lia.
Defined.

(** C4, counterexample: a buffer whose count at offset 8 equals 2 does
    not pass the check; it gets the CP-size error. *)
Lemma getConstantPoolCount_rejects_two :
  intFrom2Bytes Sample.countTwo 8 = (2, None)
  /\ snd (getConstantPoolCount Sample.countTwo emptyClass)
     = Some (cfe "Invalid number of entries in constant pool: 2")
  /\ ~ (2 < 2).
Proof.
  split; [reflexivity |]. split; [reflexivity | lia].
Qed.

Lemma getConstantPoolCount_error_kind bytes klass klass' e :
  getConstantPoolCount bytes klass = (klass', Some e) ->
  kind e = ClassFormatError.
Proof.
  unfold getConstantPoolCount.
  destruct (intFrom2Bytes bytes 8) as [c err].
  destruct (_ || _); intros [= _ <-] || intros [=]. reflexivity.
Qed.

Lemma parseAccessFlags_error_kind bytes loc klass klass' pos e :
  parseAccessFlags bytes loc klass = (klass', pos, Some e) ->
  kind e = ClassFormatError.
Proof.
  unfold parseAccessFlags.
  destruct (intFrom2Bytes bytes (loc + 1)) as [c [err|]];
    intros [= _ _ <-] || intros [=]. reflexivity.
Qed.

(** Case analysis along the shared shape of the two name parsers. *)
Ltac step_slice Hp :=
  match type of Hp with
  | obind ?o _ = _ => destruct o; simpl in Hp; [| discriminate]
  end.

Ltac step_if Hp :=
  match type of Hp with
  | (if ?c then _ else _) = _ => destruct c; simpl in Hp
  end.

Ltac name_parser_cases Hp :=
  match type of Hp with
  | context [intFrom2Bytes ?b ?p] =>
      destruct (intFrom2Bytes b p) as [? [?|]]; simpl in Hp
  end;
  [ first [discriminate Hp | injection Hp as <- <- <-] |
    step_if Hp;
    [ first [discriminate Hp | injection Hp as <- <- <-] |
      step_slice Hp; step_if Hp;
      [ first [discriminate Hp | injection Hp as <- <- <-] |
        step_slice Hp; step_slice Hp; step_if Hp;
        [ first [discriminate Hp | injection Hp as <- <- <-] | step_slice Hp ] ] ] ].

Lemma parseClassName_error_kind bytes loc klass klass' pos e :
  parseClassName bytes loc klass = Ret (klass', pos, Some e) ->
  kind e = ClassFormatError.
Proof.
  intros Hp. unfold parseClassName, mbind, outcome_bind in Hp.
  name_parser_cases Hp; try reflexivity.
  discriminate.
Qed.

Lemma parseSuperClassName_error_kind bytes loc klass klass' pos e :
  parseSuperClassName bytes loc klass = Ret (klass', pos, Some e) ->
  kind e = ClassFormatError.
Proof.
  intros Hp. unfold parseSuperClassName, mbind, outcome_bind in Hp.
  name_parser_cases Hp; try reflexivity.
  destruct (_ && _); [injection Hp as <- <- <-; reflexivity | discriminate].
Qed.

(** What the last step guarantees when it succeeds. *)
Lemma parseSuperClassName_success bytes loc klass klass' pos :
  parseSuperClassName bytes loc klass = Ret (klass', pos, None) ->
  superClass klass' <> "" \/ className klass' = "java/lang/Object".
Proof.
  intros Hp. unfold parseSuperClassName, mbind, outcome_bind in Hp.
  name_parser_cases Hp.
  match type of Hp with
  | context [String.eqb ?n ""] => destruct (String.eqb n "") eqn:Hname
  end; simpl in Hp.
  - destruct (String.eqb (className klass) "java/lang/Object") eqn:Hobj;
      simpl in Hp; [| discriminate].
    injection Hp as <- <-. right.
    apply String.eqb_eq in Hobj. destruct klass; exact Hobj.
  - injection Hp as <- <-. left.
    apply String.eqb_neq in Hname. destruct klass; exact Hname.
Qed.

Section ParseOutcome.
Context `{Globals}.
Variable pcp :
  list byte -> parsedClass -> outcome (parsedClass * Z * option error).

(** C2, as amended: when [parse] returns, either it reports an error,
    which is a [ClassFormatError] or the error handed back by the
    constant-pool parser, or it reports success, and then the
    super-class name is non-empty unless the class name is
    java/lang/Object (or the constant-pool parser stopped before offset
    10 without an error and its class is returned as it stands).
    Nothing is promised about the class name being non-empty or about
    the access flags being compatible with each other. *)
Theorem parse_returns raw pc err :
  parse pcp raw = Ret (pc, err) ->
  match err with
  | Some e =>
      kind e = ClassFormatError
      \/ exists klass pos, pcp raw klass = Ret (pc, pos, Some e)
  | None =>
      (superClass pc <> "" \/ className pc = "java/lang/Object")
      \/ exists klass pos, pcp raw klass = Ret (pc, pos, None) /\ pos < 10
  end.
Proof.
  unfold parse. intros Hp.
  destruct (parseMagicNumber raw) as [e0|] eqn:Hmagic.
  { injection Hp as <- <-. left.
    eapply parseMagicNumber_error_kind; eassumption. }
  destruct (parseJavaVersionNumber raw emptyClass) as [k1 [e1|]] eqn:Hver.
  { injection Hp as <- <-. left.
    eapply parseJavaVersionNumber_error_kind; eassumption. }
  destruct (getConstantPoolCount raw k1) as [k2 [e2|]] eqn:Hcount.
  { injection Hp as <- <-. left.
    eapply getConstantPoolCount_error_kind; eassumption. }
  unfold mbind, outcome_bind in Hp.
  destruct (pcp raw k2) as [[[k3 pos3] err3]|] eqn:Hpool; simpl in Hp;
    [| discriminate].
  destruct err3 as [e3|]; simpl in Hp.
  { injection Hp as <- <-. right. eauto. }
  destruct (Z.ltb_spec pos3 10); simpl in Hp.
  { injection Hp as <- <-. right. eauto. }
  destruct (parseAccessFlags raw pos3 k3) as [[k4 pos4] [e4|]] eqn:Hacc.
  { injection Hp as <- <-. left.
    eapply parseAccessFlags_error_kind; eassumption. }
  destruct (parseClassName raw pos4 k4) as [[[k5 pos5] [e5|]]|] eqn:Hname;
    simpl in Hp; [| | discriminate].
  { injection Hp as <- <-. left.
    eapply parseClassName_error_kind; eassumption. }
  destruct (parseSuperClassName raw pos5 k5)
    as [[[k6 pos6] [e6|]]|] eqn:Hsuper; simpl in Hp; [| | discriminate].
  { injection Hp as <- <-. left.
    eapply parseSuperClassName_error_kind; eassumption. }
  injection Hp as <- <-. left.
  eapply parseSuperClassName_success; eassumption.
Qed.
End ParseOutcome.

(** C2, witness: the class file of "B extends A" parses. *)
Lemma parse_returns_witness :
  exists pc,
    parse (H := Sample.java17) parseConstantPool Sample.classB
    = Ret (pc, None)
    /\ ((superClass pc <> "" \/ className pc = "java/lang/Object")
        \/ exists klass pos,
            parseConstantPool Sample.classB klass = Ret (pc, pos, None)
            /\ pos < 10).
Proof.
  eexists. split; [vm_compute; reflexivity |].
  apply (parse_returns (H := Sample.java17) parseConstantPool
                       Sample.classB _ None).
  vm_compute; reflexivity.
Defined.

(** C2, counterexample: [parse] reports success (a nil error) for a class
    file whose class name is the empty string and whose access flags are
    final and abstract together. *)
Lemma parse_accepts_nameless_class :
  exists pc,
    parse (H := Sample.java17) parseConstantPool Sample.namelessClass
    = Ret (pc, None)
    /\ className pc = ""
    /\ classIsFinal pc = true /\ classIsAbstract pc = true.
Proof.
  eexists. split; [vm_compute; reflexivity |]. repeat split.
Qed.

(** A class file of the highest supported major version goes through the
    whole of [parse], and the class returned carries the version. *)
Example parse_records_the_version :
  exists pc,
    parse (H := Sample.java17) parseConstantPool Sample.classB = Ret (pc, None)
    /\ javaVersion pc = MaxJavaVersionRaw (Globals := Sample.java17)
    /\ className pc = "B" /\ superClass pc = "A".
Proof. eexists. split; [vm_compute; reflexivity |]. repeat split. Qed.

(** The slice accesses that follow the range check of the this-class index
    are unchecked: a ClassRef that points beyond the pool makes [parse]
    panic instead of returning an error. *)
Example parse_panics_on_dangling_ClassRef :
  parse (H := Sample.java17) parseConstantPool Sample.danglingClassRef
  = Panic.
Proof. vm_compute. reflexivity. Qed.

End ParserFacts.

(* ===================================================================== *)
(** * Properties of the constant-pool accessor *)
(* ===================================================================== *)

Module PoolFacts.

Lemma sliceAt_Ret {A} (l : list A) (i : Z) (a : A) :
  0 <= i -> l !! Z.to_nat i = Some a -> sliceAt l i = Ret a.
Proof.
  intros Hi Hl. unfold sliceAt.
  destruct (Z.ltb_spec i 0); [lia |]. rewrite Hl. reflexivity.
Qed.

Lemma sliceAt_Panic {A} (l : list A) (i : Z) :
  i < 0 \/ len l <= i -> sliceAt l i = Panic.
Proof.
  intros Hi. unfold sliceAt, len in *.
  destruct (Z.ltb_spec i 0); [reflexivity |].
  rewrite (proj2 (lookup_ge_None l (Z.to_nat i))); [reflexivity | lia].
Qed.

Lemma uint16_le (n : Z) : 0 <= n -> uint16 n <= n.
Proof. intros Hn. unfold uint16. apply Z.mod_le; lia. Qed.

Lemma uint16_small (n : Z) : 0 <= n < 65536 -> uint16 n = n.
Proof. intros Hn. unfold uint16. apply Z.mod_small. assumption. Qed.

(** The value returned, with the logging stripped. *)
Lemma FetchUTF8_result cp entry s :
  fst (FetchUTF8stringFromCPEntryNumber cp entry s) =
  if (entry <? 1) || (entry >=? uint16 (len (CpIndex cp))) then Done ""
  else match sliceAt (CpIndex cp) entry with
       | Panic => Panicked
       | Ret u =>
           if negb (Type_ u =? Tag.UTF8) then Done ""
           else match sliceAt (Utf8Refs cp) (Slot u) with
                | Ret str => Done str
                | Panic => Panicked
                end
       end.
Proof.
  unfold FetchUTF8stringFromCPEntryNumber.
  destruct (_ || _); [reflexivity |].
  unfold mbind, M_bind, liftO.
  destruct (sliceAt (CpIndex cp) entry) as [u|]; [| reflexivity].
  destruct (negb _); [reflexivity |].
  destruct (sliceAt (Utf8Refs cp) (Slot u)); reflexivity.
Qed.

(** C9, as amended: the accessor returns the empty string when the entry
    index is below 1, when it is not less than the length of [CpIndex]
    converted to [uint16] (in particular when it is not less than the
    length itself), or when the entry is not tagged UTF8; otherwise, when
    the entry's slot lies inside [Utf8Refs], it returns the string stored
    there, and when the slot lies outside, the access panics. *)
Theorem FetchUTF8_cases cp entry s :
  let r := fst (FetchUTF8stringFromCPEntryNumber cp entry s) in
  (entry < 1 \/ uint16 (len (CpIndex cp)) <= entry
   \/ len (CpIndex cp) <= entry -> r = Done "")
  /\ (forall u,
        1 <= entry < uint16 (len (CpIndex cp)) ->
        CpIndex cp !! Z.to_nat entry = Some u ->
        (Type_ u <> Tag.UTF8 -> r = Done "")
        /\ (Type_ u = Tag.UTF8 ->
            forall str, 0 <= Slot u ->
                        Utf8Refs cp !! Z.to_nat (Slot u) = Some str ->
                        r = Done str)
        /\ (Type_ u = Tag.UTF8 ->
            Slot u < 0 \/ len (Utf8Refs cp) <= Slot u -> r = Panicked)).
Proof.
  intros r. subst r. rewrite FetchUTF8_result. split.
  - intros Hout.
    assert (Hle : uint16 (len (CpIndex cp)) <= len (CpIndex cp))
      by (apply uint16_le; unfold len; lia).
    destruct (Z.ltb_spec entry 1); [reflexivity |].
    destruct (Z.geb_spec entry (uint16 (len (CpIndex cp))));
      [reflexivity | lia].
  - intros u Hin Hu.
    destruct (Z.ltb_spec entry 1); [lia |].
    destruct (Z.geb_spec entry (uint16 (len (CpIndex cp)))); [lia |].
    simpl. rewrite (sliceAt_Ret _ _ u) by (assumption || lia).
    repeat split.
    + intros Htag. destruct (Z.eqb_spec (Type_ u) Tag.UTF8);
        [contradiction | reflexivity].
    + intros Htag str Hslot Hstr. rewrite Htag. simpl.
      rewrite (sliceAt_Ret _ _ str) by assumption. reflexivity.
    + intros Htag Hslot. rewrite Htag. simpl.
      rewrite sliceAt_Panic by assumption. reflexivity.
Qed.

(** C9, witness: entry 1 of a three-entry pool is the UTF8 string in slot
    0; entry 2 is a ClassRef; entry 3 is out of range. *)
Lemma FetchUTF8_cases_witness :
  fst (FetchUTF8stringFromCPEntryNumber Sample.goodPool 1 Sample.emptyVM)
  = Done "Hello"
  /\ fst (FetchUTF8stringFromCPEntryNumber Sample.goodPool 2 Sample.emptyVM)
     = Done ""
  /\ fst (FetchUTF8stringFromCPEntryNumber Sample.goodPool 3 Sample.emptyVM)
     = Done "".
Proof.
  split; [| split].
  - refine (proj1 (proj2 (proj2 (FetchUTF8_cases Sample.goodPool 1
                                     Sample.emptyVM)
                                 (mkCpEntry 1 0) _ _)) _ "Hello" _ _).
    + vm_compute. split; discriminate || reflexivity.
    + reflexivity.
    + reflexivity.
    + simpl; lia.
    + reflexivity.
  - refine (proj1 (proj2 (FetchUTF8_cases Sample.goodPool 2 Sample.emptyVM)
                         (mkCpEntry 7 0) _ _) _).
    + vm_compute. split; discriminate || reflexivity.
    + reflexivity.
    + vm_compute. intros Htag. discriminate Htag.
  - apply (proj1 (FetchUTF8_cases Sample.goodPool 3 Sample.emptyVM)).
    right. left. vm_compute. discriminate.
Defined.

(** C9, counterexample: two pools and an entry index that is at least 1,
    less than the length of [CpIndex] and tagged UTF8, for which the
    accessor does not return the string of the entry's slot.  In the
    first the slot lies outside [Utf8Refs] and the call panics; in the
    second [CpIndex] has 65536 entries, its length converts to the
    [uint16] 0, and the call returns the empty string although slot 0
    holds "Hello". *)
Lemma FetchUTF8_not_always_the_string :
  (1 <= 1 < len (CpIndex Sample.badSlotPool)
   /\ CpIndex Sample.badSlotPool !! 1%nat = Some (mkCpEntry Tag.UTF8 0)
   /\ forall s,
       fst (FetchUTF8stringFromCPEntryNumber Sample.badSlotPool 1 s)
       = Panicked)
  /\ (1 <= 1 < len (CpIndex Sample.hugePool)
      /\ CpIndex Sample.hugePool !! 1%nat = Some (mkCpEntry Tag.UTF8 0)
      /\ Utf8Refs Sample.hugePool !! 0%nat = Some "Hello"
      /\ forall s,
          fst (FetchUTF8stringFromCPEntryNumber Sample.hugePool 1 s)
          = Done "").
Proof.
  split.
  - split; [vm_compute; split; discriminate || reflexivity |].
    split; [reflexivity |].
    intros s. rewrite FetchUTF8_result. reflexivity.
  - split; [vm_compute; split; discriminate || reflexivity |].
    split; [reflexivity |]. split; [reflexivity |].
    intros s. rewrite FetchUTF8_result. vm_compute. reflexivity.
Qed.

(** C10: the accessor checks the entry index and the tag but not the
    slot.  On a pool whose UTF8-tagged entries all have their slot inside
    [Utf8Refs] every call returns a string (the last access is in
    bounds); the condition is not checked by the accessor: an entry that
    passes the two checks with a slot outside [Utf8Refs] makes the call
    panic. *)
Theorem FetchUTF8_total_on_well_formed_pools cp entry s :
  (utf8SlotsInRange cp ->
   exists str, fst (FetchUTF8stringFromCPEntryNumber cp entry s) = Done str)
  /\ (forall u,
        1 <= entry < uint16 (len (CpIndex cp)) ->
        CpIndex cp !! Z.to_nat entry = Some u ->
        Type_ u = Tag.UTF8 ->
        ~ (0 <= Slot u < len (Utf8Refs cp)) ->
        fst (FetchUTF8stringFromCPEntryNumber cp entry s) = Panicked).
Proof.
  rewrite FetchUTF8_result. split.
  - intros Hwf.
    destruct (_ || _) eqn:Hrange; [eauto |].
    apply orb_false_iff in Hrange as [Hlo Hhi].
    apply Z.ltb_ge in Hlo.
    assert (Hlt : entry < uint16 (len (CpIndex cp)))
      by (destruct (Z.geb_spec entry (uint16 (len (CpIndex cp))));
          [discriminate | assumption]).
    assert (Hle : uint16 (len (CpIndex cp)) <= len (CpIndex cp))
      by (apply uint16_le; unfold len; lia).
    destruct (lookup_lt_is_Some_2 (CpIndex cp) (Z.to_nat entry))
      as [u Hu]; [unfold len in *; lia |].
    rewrite (sliceAt_Ret _ _ u) by (assumption || lia).
    destruct (Z.eqb_spec (Type_ u) Tag.UTF8) as [Htag | Htag];
      simpl; [| eauto].
    specialize (Hwf _ _ Hu Htag).
    destruct (lookup_lt_is_Some_2 (Utf8Refs cp) (Z.to_nat (Slot u)))
      as [str Hstr]; [unfold len in *; lia |].
    rewrite (sliceAt_Ret _ _ str) by (assumption || lia). eauto.
  - intros u Hin Hu Htag Hslot.
    destruct (Z.ltb_spec entry 1); [lia |].
    destruct (Z.geb_spec entry (uint16 (len (CpIndex cp)))); [lia |].
    simpl. rewrite (sliceAt_Ret _ _ u) by (assumption || lia).
    rewrite Htag. simpl. rewrite sliceAt_Panic by lia. reflexivity.
Qed.

Lemma goodPool_well_formed : utf8SlotsInRange Sample.goodPool.
Proof.
  intros i u Hu Htag.
  destruct i as [|[|[|i]]]; simpl in Hu; try discriminate;
    injection Hu as <-; try discriminate Htag.
  vm_compute. split; discriminate || reflexivity.
Qed.

(** C10, witness: a well-formed pool, and the ill-formed one. *)
Lemma FetchUTF8_total_on_well_formed_pools_witness :
  (exists str,
      fst (FetchUTF8stringFromCPEntryNumber Sample.goodPool 1 Sample.emptyVM)
      = Done str)
  /\ fst (FetchUTF8stringFromCPEntryNumber Sample.badSlotPool 1
                                             Sample.emptyVM)
     = Panicked.
Proof.
  split.
  - apply (proj1 (FetchUTF8_total_on_well_formed_pools
                    Sample.goodPool 1 Sample.emptyVM)).
    exact goodPool_well_formed.
  - apply (proj2 (FetchUTF8_total_on_well_formed_pools
                    Sample.badSlotPool 1 Sample.emptyVM) (mkCpEntry 1 0)).
    + vm_compute. split; discriminate || reflexivity.
    + reflexivity.
    + reflexivity.
    + vm_compute. intros [_ Hlt]. discriminate Hlt.
Defined.

End PoolFacts.

(* ===================================================================== *)
(** * Properties of method resolution *)
(* ===================================================================== *)

Module ResolverFacts.

Lemma foundInMTable_native e meth :
  Meth e = Some meth -> MType e = "G"%char -> foundInMTable e = Some e.
Proof.
  destruct e as [me ty]. simpl. intros -> ->. reflexivity.
Qed.

Lemma foundInMTable_keeps e found :
  foundInMTable e = Some found -> found = e.
Proof.
  destruct e as [[meth|] ty]; unfold foundInMTable; simpl; [| discriminate].
  destruct (Ascii.eqb_spec ty "J"); [intros [= <-]; congruence |].
  destruct (Ascii.eqb_spec ty "G"); [intros [= <-]; congruence |].
  discriminate.
Qed.

Ltac run_M :=
  unfold mbind, M_bind, mret, M_ret, MethAreaFetch, MTableGet, MTablePut,
    LoadClassFromNameOnly, WaitForClassStatus, shutdownExit, noMainError,
    Log, panic; simpl.

Section WithCollaborators.
Context `{Collaborators}.

(** What [FetchMethodAndCP] does for a loaded class that has no method
    of the requested signature and no entry in the method table. *)
Lemma FetchMethodAndCP_not_declared className methName methType s k data :
  MethArea s !! className = Some k ->
  foundInMTable
    (default MTentry_zero (MTable s !! methFQN className methName methType))
  = None ->
  waitStatus className (MethArea s) = None ->
  Loader k <> "" ->
  Data k = Some data ->
  ClData.MethodTable data !! (methName +:+ methType) = None ->
  FetchMethodAndCP className methName methType s
  = (Done (MTentry_zero,
           Some (errorsNew ("FetchMethodAndCP: Found class " +:+ className
                            +:+ ", but it did not contain method: "
                            +:+ methName))),
     if String.eqb methName "main"
     then mkVM (MethArea s) (MTable s) (Statics s)
               (logged s ++ [(noMainMessage className, SEVERE)])
               (exitRequests s)
     else s).
Proof.
  intros Hk Hmiss Hwait Hloader Hdata Hmeth.
  unfold FetchMethodAndCP. run_M.
  rewrite Hk. simpl. rewrite Hmiss, Hwait, Hk.
  apply String.eqb_neq in Hloader. rewrite Hloader, Hdata, Hmeth.
  destruct (String.eqb methName "main"); reflexivity.
Qed.

(** The method table after a call is the one before it, possibly with a
    bytecode entry stored under the key of the call, and that only when
    the key held no entry that the first lookup accepts. *)
Lemma FetchMethodAndCP_MTable className methName methType s :
  let s' := snd (FetchMethodAndCP className methName methType s) in
  MTable s' = MTable s
  \/ (foundInMTable
        (default MTentry_zero
                 (MTable s !! methFQN className methName methType)) = None
      /\ exists jme,
          MTable s' = <[methFQN className methName methType :=
                          {| Meth := Some (JMeth jme); MType := "J" |}]>
                      (MTable s)).
Proof.
  unfold FetchMethodAndCP. run_M.
  repeat (case_match; simpl in *; simplify_eq; auto).
  all: right; split; [first [assumption | reflexivity | congruence] | eauto].
Qed.

(** C3: for a loaded class (present in the method area with a loader
    tag and data, reported ready by the wait) that does not declare
    main with the requested descriptor and has no method-table entry
    under the key, [FetchMethodAndCP(C, "main", t)] logs the three-line
    diagnostic naming C at level SEVERE and returns an error; it leaves
    the method area and the method table as they were, and what it
    returns does not depend on any other class of the method area, the
    superclass included. *)
Theorem main_not_found className methType s k data :
  MethArea s !! className = Some k ->
  Loader k <> "" ->
  Data k = Some data ->
  waitStatus className (MethArea s) = None ->
  ClData.MethodTable data !! ("main" +:+ methType) = None ->
  foundInMTable
    (default MTentry_zero (MTable s !! methFQN className "main" methType))
  = None ->
  let r := FetchMethodAndCP className "main" methType s in
  (exists e, fst r = Done (MTentry_zero, Some e))
  /\ logged (snd r)
     = (logged s ++
        [("Error: main() method not found in class " +:+ className +:+ nl
          +:+ "Please define the main method as:" +:+ nl
          +:+ "   public static void main(String[] args)", SEVERE)])%list
  /\ MethArea (snd r) = MethArea s
  /\ MTable (snd r) = MTable s
  /\ exitRequests (snd r) = exitRequests s
  /\ (forall area,
        area !! className = Some k ->
        waitStatus className area = None ->
        fst (FetchMethodAndCP className "main" methType (withMethArea area s))
        = fst r).
Proof.
  intros Hk Hloader Hdata Hwait Hmeth Hmiss r. subst r.
  rewrite (FetchMethodAndCP_not_declared _ _ _ _ _ _
             Hk Hmiss Hwait Hloader Hdata Hmeth).
  simpl. split; [eauto |]. repeat split.
  intros area Hk' Hwait'.
  rewrite (FetchMethodAndCP_not_declared className "main" methType
             (withMethArea area s) k data Hk' Hmiss Hwait' Hloader Hdata
             Hmeth).
  reflexivity.
Qed.

(** C6, as amended: when the method table maps the fully-qualified key to
    a native entry (a non-nil method with type 'G'), [FetchMethodAndCP]
    returns that entry and leaves the table alone, provided the call gets
    past the loading step that precedes the table lookup (the class is in
    the method area, or loading it succeeds, or a test harness intercepts
    the exit); and no call of [FetchMethodAndCP], whatever its arguments,
    replaces the entry. *)
Theorem native_entry_not_shadowed className methName methType s e meth :
  MTable s !! methFQN className methName methType = Some e ->
  Meth e = Some meth ->
  MType e = "G"%char ->
  (is_Some (MethArea s !! className)
   \/ snd (loadClass className (MethArea s)) = None
   \/ testHarness = true ->
   fst (FetchMethodAndCP className methName methType s) = Done (e, None)
   /\ MTable (snd (FetchMethodAndCP className methName methType s))
      = MTable s)
  /\ (forall c m t,
         MTable (snd (FetchMethodAndCP c m t s))
         !! methFQN className methName methType = Some e).
Proof.
  intros He Hmeth Hty.
  pose proof (foundInMTable_native e meth Hmeth Hty) as Hfound.
  split.
  - intros Hload. unfold FetchMethodAndCP. run_M.
    destruct (MethArea s !! className) as [k|] eqn:Hk; simpl.
    + rewrite He. simpl. rewrite Hfound. split; reflexivity.
    + destruct Hload as [[k Hk'] | [Hload | Hharness]];
        [discriminate | |].
      * destruct (loadClass className (MethArea s)) as [area err].
        simpl in Hload. subst err. simpl. rewrite He. simpl.
        rewrite Hfound. split; reflexivity.
      * destruct (loadClass className (MethArea s)) as [area [err|]];
          simpl; rewrite ?Hharness;
          destruct (String.eqb methName "main"); simpl;
            rewrite ?Hharness; simpl; rewrite He; simpl; rewrite Hfound;
              split; reflexivity.
  - intros c m t.
    destruct (FetchMethodAndCP_MTable c m t s)
      as [-> | [Hmiss [jme ->]]]; [assumption |].
    destruct (decide (methFQN c m t = methFQN className methName methType))
      as [Heq | Hne].
    + rewrite Heq, He in Hmiss. simpl in Hmiss. congruence.
    + rewrite lookup_insert_ne by assumption. assumption.
Qed.
End WithCollaborators.

(** C3, witness: [Child] lacks main while its superclass [Parent]
    declares it. *)
Lemma main_not_found_witness :
  let r := FetchMethodAndCP (H := Sample.world)
                            "Child" "main" "([Ljava/lang/String;)V"
                            Sample.family in
  (exists e, fst r = Done (MTentry_zero, Some e))
  /\ logged (snd r)
     = [("Error: main() method not found in class Child" +:+ nl
         +:+ "Please define the main method as:" +:+ nl
         +:+ "   public static void main(String[] args)", SEVERE)]
  /\ MethArea (snd r) = MethArea Sample.family
  /\ MTable (snd r) = MTable Sample.family
  /\ exitRequests (snd r) = exitRequests Sample.family
  /\ (forall area,
        area !! "Child" = Some Sample.Child ->
        waitStatus (Collaborators := Sample.world) "Child" area = None ->
        fst (FetchMethodAndCP (H := Sample.world) "Child" "main"
               "([Ljava/lang/String;)V" (withMethArea area Sample.family))
        = fst r).
Proof.
  apply (main_not_found (H := Sample.world) "Child" "([Ljava/lang/String;)V"
                        Sample.family Sample.Child
                        (Sample.classData "Child" "Parent" ∅)).
  - reflexivity.
  - simpl. discriminate.
  - reflexivity.
  - reflexivity.
  - reflexivity.
  - reflexivity.
Defined.

(** C6, witness: the native [getPrimitiveClass] of java/lang/Class, whose
    class also declares a method of that signature. *)
Lemma native_entry_not_shadowed_witness :
  fst (FetchMethodAndCP (H := Sample.world) "java/lang/Class"
         "getPrimitiveClass" "(Ljava/lang/String;)Ljava/lang/Class;"
         Sample.withNative)
  = Done (Sample.nativeEntry, None)
  /\ MTable (snd (FetchMethodAndCP (H := Sample.world) "java/lang/Class"
                    "getPrimitiveClass"
                    "(Ljava/lang/String;)Ljava/lang/Class;"
                    Sample.withNative))
     = MTable Sample.withNative.
Proof.
  refine (proj1 (native_entry_not_shadowed (H := Sample.world)
                   "java/lang/Class" "getPrimitiveClass"
                   "(Ljava/lang/String;)Ljava/lang/Class;"
                   Sample.withNative Sample.nativeEntry
                   (GMethod (mkGMeth 1 Go_getPrimitiveClass)) _ _ _) _).
  - reflexivity.
  - reflexivity.
  - reflexivity.
  - left. eexists. reflexivity.
Defined.

(** C6, counterexample: the method table maps the key of
    java/lang/Class.getPrimitiveClass to a native entry, but the class is
    not in the method area and the loader fails; the loading step comes
    before the table lookup, so with no test harness the process exits
    and the native entry is not returned. *)
Lemma native_entry_not_returned_for_unloadable_class :
  let t := "(Ljava/lang/String;)Ljava/lang/Class;" in
  MTable More.nativeOnly !! methFQN "java/lang/Class" "getPrimitiveClass" t
  = Some Sample.nativeEntry
  /\ (exists meth, Meth Sample.nativeEntry = Some meth)
  /\ MType Sample.nativeEntry = "G"%char
  /\ fst (FetchMethodAndCP (H := Sample.world) "java/lang/Class"
                           "getPrimitiveClass" t More.nativeOnly)
     = Exited JVM_EXCEPTION
  /\ fst (FetchMethodAndCP (H := Sample.world) "java/lang/Class"
                           "getPrimitiveClass" t More.nativeOnly)
     <> Done (Sample.nativeEntry, None).
Proof.
  intros t. split; [reflexivity |]. split; [eexists; reflexivity |].
  split; [reflexivity |].
  assert (Hrun : fst (FetchMethodAndCP (H := Sample.world) "java/lang/Class"
                        "getPrimitiveClass" t More.nativeOnly)
                 = Exited JVM_EXCEPTION) by (vm_compute; reflexivity).
  split; [exact Hrun |]. rewrite Hrun. discriminate.
Qed.

(** C1, the code at the failing input: [Child] declares no [toString],
    its superclass [Parent] is loaded and declares
    [toString()Ljava/lang/String;]; the call for [Child] returns the
    not-found error of [Child] and stores nothing under the key of
    [Child], whereas the same call for [Parent] returns a bytecode
    entry. *)
Theorem superclass_is_not_searched :
  let t := "()Ljava/lang/String;" in
  let r := FetchMethodAndCP (H := Sample.world) "Child" "toString" t
                            Sample.family in
  (exists data, Data Sample.Child = Some data
                /\ ClData.Superclass data = "Parent"
                /\ ClData.MethodTable data !! ("toString" +:+ t) = None)
  /\ (exists entry,
         fst (FetchMethodAndCP (H := Sample.world) "Parent" "toString" t
                               Sample.family)
         = Done (entry, None) /\ MType entry = "J"%char)
  /\ fst r
     = Done (MTentry_zero,
             Some (errorsNew ("FetchMethodAndCP: Found class Child, " +:+
                              "but it did not contain method: toString")))
  /\ MTable (snd r) !! methFQN "Child" "toString" t = None.
Proof.
  intros t r. split; [| split].
  - eexists. repeat split.
  - eexists. split; [vm_compute; reflexivity | reflexivity].
  - subst r.
    rewrite (FetchMethodAndCP_not_declared (H := Sample.world)
               "Child" "toString" t Sample.family Sample.Child
               (Sample.classData "Child" "Parent" ∅));
      try reflexivity.
    + split; reflexivity.
    + simpl. discriminate.
Qed.

End ResolverFacts.

(* ===================================================================== *)
(** * Properties of the natives of java/lang/Class *)
(* ===================================================================== *)

Module NativeFacts.

Lemma wrapperOf_table str wrapper :
  (str, wrapper) ∈ primitiveWrappers -> wrapperOf str = Some wrapper.
Proof.
  unfold primitiveWrappers. intros Hin.
  repeat (apply elem_of_cons in Hin as [[= -> ->] | Hin]; [reflexivity |]).
  apply elem_of_nil in Hin. contradiction.
Qed.



Section WithCollaborators.
Context `{Collaborators}.

End WithCollaborators.


Lemma int64_exact (n : Z) : in_int64 n -> int64 n = n.
Proof.
  unfold in_int64, int64. intros Hn.
  rewrite Z.mod_small by lia. lia.
Qed.

(** C8: when the statics store holds the [int64] x under
    "main.$assertionsDisabled", [getAssertionsEnabledStatus] returns
    1 - x computed in [int64], which is the integer 1 - x for every x but
    the two smallest ones; it returns 1 for a stored 0 and 0 for a
    stored 1. *)
Theorem getAssertionsEnabledStatus_value params s st x :
  Statics s !! "main.$assertionsDisabled" = Some st ->
  Value st = IInt64 x ->
  in_int64 x ->
  let r := fst (getAssertionsEnabledStatus params s) in
  r = Done (IInt64 (int64 (1 - x)))
  /\ (- 2 ^ 63 + 2 <= x -> r = Done (IInt64 (1 - x)))
  /\ (x = 0 -> r = Done (IInt64 1))
  /\ (x = 1 -> r = Done (IInt64 0)).
Proof.
  intros Hst Hval Hx r.
  assert (Hr : r = Done (IInt64 (int64 (1 - x)))).
  { subst r. unfold getAssertionsEnabledStatus, mbind, M_bind, StaticsGet.
    simpl. rewrite Hst. simpl. rewrite Hval. reflexivity. }
  split; [exact Hr |]. rewrite Hr. unfold in_int64 in Hx.
  repeat split.
  - intros Hlow. rewrite int64_exact by (unfold in_int64; lia). reflexivity.
  - intros ->. reflexivity.
  - intros ->. reflexivity.
Qed.

(** C8, witness: a stored 0 gives 1 and a stored 1 gives 0. *)
Lemma getAssertionsEnabledStatus_value_witness :
  fst (getAssertionsEnabledStatus [] (Sample.assertionsStore 0))
  = Done (IInt64 1)
  /\ fst (getAssertionsEnabledStatus [] (Sample.assertionsStore 1))
     = Done (IInt64 0).
Proof.
  split.
  - refine (proj1 (proj2 (proj2 (getAssertionsEnabledStatus_value
              [] (Sample.assertionsStore 0) (mkStatic "Z" (IInt64 0)) 0
              _ _ _))) _).
    + reflexivity.
    + reflexivity.
    + unfold in_int64. lia.
    + reflexivity.
  - refine (proj2 (proj2 (proj2 (getAssertionsEnabledStatus_value
              [] (Sample.assertionsStore 1) (mkStatic "Z" (IInt64 1)) 1
              _ _ _))) _).
    + reflexivity.
    + reflexivity.
    + unfold in_int64. lia.
    + reflexivity.
Defined.

(** With no entry under the key the type assertion on the nil value
    panics. *)
Example getAssertionsEnabledStatus_without_entry :
  fst (getAssertionsEnabledStatus [] Sample.emptyVM) = Panicked.
Proof. reflexivity. Qed.

End NativeFacts.

(* ===================================================================== *)
(** * Further properties of the parser *)
(* ===================================================================== *)

Module ParserMore.
Import Parser.

Lemma byte_is_true bytes i b :
  byte_is bytes i b = true <-> bytes !! i = Some b.
Proof.
  unfold byte_is. destruct (bytes !! i) as [x|]; [| split; discriminate].
  split.
  - intros Heq. apply Byte.byte_dec_bl in Heq. congruence.
  - intros [= ->]. apply Byte.byte_dec_lb. reflexivity.
Qed.

(** X1: [parseMagicNumber] accepts a buffer exactly when its first four
    bytes are CA FE BA BE, and every refusal (a shorter buffer included)
    is the class format error "invalid magic number". *)
Theorem parseMagicNumber_accepts_iff (bytes : list byte) :
  (parseMagicNumber bytes = None
   <-> exists rest, bytes = xca :: xfe :: xba :: xbe :: rest)
  /\ (parseMagicNumber bytes = None
      \/ parseMagicNumber bytes = Some (cfe "invalid magic number")).
Proof.
  split.
  - unfold parseMagicNumber. split.
    + destruct (Z.ltb_spec (len bytes) 4); [discriminate |].
      destruct (byte_is bytes 0 xca) eqn:H0; simpl; [| discriminate].
      destruct (byte_is bytes 1 xfe) eqn:H1; simpl; [| discriminate].
      destruct (byte_is bytes 2 xba) eqn:H2; simpl; [| discriminate].
      destruct (byte_is bytes 3 xbe) eqn:H3; simpl; [| discriminate].
      intros _.
      apply byte_is_true in H0, H1, H2, H3.
      destruct bytes as [|b0 [|b1 [|b2 [|b3 rest]]]]; try discriminate.
      simpl in *. exists rest. congruence.
    + intros [rest ->]. unfold len. simpl length.
      destruct (Z.ltb_spec (Z.of_nat (S (S (S (S (length rest)))))) 4);
        [lia | reflexivity].
  - unfold parseMagicNumber.
    destruct (len bytes <? 4); [right; reflexivity |].
    destruct (_ || _); [right | left]; reflexivity.
Qed.

Lemma intFrom2Bytes_short bytes pos :
  len bytes < pos + 2 ->
  intFrom2Bytes bytes pos = (0, Some (cfe "invalid offset into file")).
Proof.
  intros Hlen. unfold intFrom2Bytes.
  destruct (Z.ltb_spec (len bytes) (pos + 2)); [| lia].
  rewrite orb_true_r. reflexivity.
Qed.

Section Short.
Context `{Globals}.
Variable pcp :
  list byte -> parsedClass -> outcome (parsedClass * Z * option error).

(** X2: a buffer of fewer than ten bytes never reaches the constant-pool
    parser: [parse] returns a class format error, together with a class
    whose pool is empty and whose names are empty. *)
Theorem parse_truncated_header (raw : list byte) :
  len raw < 10 ->
  exists pc e,
    parse pcp raw = Ret (pc, Some e)
    /\ kind e = ClassFormatError
    /\ cpIndex pc = [] /\ className pc = "" /\ superClass pc = "".
Proof.
  intros Hlen. unfold parse.
  destruct (parseMagicNumber raw) as [e0|] eqn:Hmagic.
  { exists emptyClass, e0. repeat split.
    eapply ParserFacts.parseMagicNumber_error_kind; eassumption. }
  destruct (parseJavaVersionNumber raw emptyClass) as [k1 [e1|]] eqn:Hver.
  { unfold parseJavaVersionNumber in Hver.
    destruct (intFrom2Bytes raw 6) as [v [e|]] eqn:Hrd.
    - injection Hver as <- <-. exists emptyClass, e. repeat split.
      eapply ParserFacts.intFrom2Bytes_error_kind; eassumption.
    - destruct (v >? MaxJavaVersionRaw); [| discriminate].
      injection Hver as <- <-. eexists emptyClass, _. repeat split. }
  unfold parseJavaVersionNumber in Hver.
  destruct (intFrom2Bytes raw 6) as [v [e|]]; [discriminate |].
  destruct (v >? MaxJavaVersionRaw); [discriminate |].
  injection Hver as <-.
  unfold getConstantPoolCount.
  rewrite (intFrom2Bytes_short raw 8) by lia. simpl.
  eexists _, _. repeat split.
Qed.
End Short.

(** X2, witness: the four bytes of the magic number alone. *)
Lemma parse_truncated_header_witness :
  exists pc e,
    parse (H := Sample.java17) parseConstantPool More.magicOnly
    = Ret (pc, Some e)
    /\ kind e = ClassFormatError
    /\ cpIndex pc = [] /\ className pc = "" /\ superClass pc = "".
Proof.
  apply (parse_truncated_header (H := Sample.java17) parseConstantPool
                                More.magicOnly).
  vm_compute. reflexivity.
Defined.

Lemma land_bit (f n : Z) :
  0 <= n -> (Z.land f (2 ^ n) >? 0) = Z.testbit f n.
Proof.
  intros Hn.
  assert (Hland : Z.land f (2 ^ n) = if Z.testbit f n then 2 ^ n else 0).
  { apply Z.bits_inj'. intros m Hm.
    rewrite Z.land_spec, Z.pow2_bits_eqb by assumption.
    destruct (Z.eqb_spec n m) as [-> | Hne].
    - rewrite andb_true_r. destruct (Z.testbit f m) eqn:Hbit.
      + rewrite Z.pow2_bits_eqb by assumption. symmetry. apply Z.eqb_refl.
      + symmetry. apply Z.bits_0.
    - rewrite andb_false_r. destruct (Z.testbit f n).
      + rewrite Z.pow2_bits_eqb by assumption. symmetry.
        apply Z.eqb_neq. assumption.
      + symmetry. apply Z.bits_0. }
  rewrite Hland. destruct (Z.testbit f n).
  - apply Z.gtb_lt. apply Z.pow_pos_nonneg; lia.
  - reflexivity.
Qed.

(** X3: [parseAccessFlags] always advances the offset by two.  When the
    two bytes can be read it stores the bitmask and raises each of the
    nine flags whose bit is set (bits 0, 4, 5, 9, 10, 12, 13, 14, 15); it
    never lowers a flag and leaves the pool and the names alone.  When
    they cannot be read it returns the class unchanged with the error
    "Invalid get of class access flags". *)
Theorem parseAccessFlags_decodes bytes loc klass :
  (forall f, intFrom2Bytes bytes (loc + 1) = (f, None) ->
     exists k',
       parseAccessFlags bytes loc klass = (k', loc + 2, None)
       /\ accessFlags k' = f
       /\ classIsPublic k' = Z.testbit f 0 || classIsPublic klass
       /\ classIsFinal k' = Z.testbit f 4 || classIsFinal klass
       /\ classIsSuper k' = Z.testbit f 5 || classIsSuper klass
       /\ classIsInterface k' = Z.testbit f 9 || classIsInterface klass
       /\ classIsAbstract k' = Z.testbit f 10 || classIsAbstract klass
       /\ classIsSynthetic k' = Z.testbit f 12 || classIsSynthetic klass
       /\ classIsAnnotation k' = Z.testbit f 13 || classIsAnnotation klass
       /\ classIsEnum k' = Z.testbit f 14 || classIsEnum klass
       /\ classIsModule k' = Z.testbit f 15 || classIsModule klass
       /\ cpIndex k' = cpIndex klass /\ classRefs k' = classRefs klass
       /\ utf8Refs k' = utf8Refs klass
       /\ className k' = className klass
       /\ superClass k' = superClass klass)
  /\ (forall v e, intFrom2Bytes bytes (loc + 1) = (v, Some e) ->
        parseAccessFlags bytes loc klass
        = (klass, loc + 2, Some (cfe "Invalid get of class access flags"))).
Proof.
  split.
  - intros f Hrd. unfold parseAccessFlags. rewrite Hrd.
    eexists. split; [reflexivity |].
    destruct klass; simpl.
    change 1 with (2 ^ 0) at 1. change 16 with (2 ^ 4).
    change 32 with (2 ^ 5). change 512 with (2 ^ 9).
    change 1024 with (2 ^ 10). change 4096 with (2 ^ 12).
    change 8192 with (2 ^ 13). change 16384 with (2 ^ 14).
    change 32768 with (2 ^ 15).
    rewrite !land_bit by lia.
    repeat split; match goal with
                  | |- context [Z.testbit f ?n] =>
                      destruct (Z.testbit f n); reflexivity
                  end.
  - intros v e Hrd. unfold parseAccessFlags. rewrite Hrd. reflexivity.
Qed.

(** X3, witness: the flags 0x0021 (public, super) of the class file
    "B extends A", read after offset 23. *)
Lemma parseAccessFlags_decodes_witness :
  exists k',
    parseAccessFlags Sample.classB 23 More.poolB = (k', 25, None)
    /\ accessFlags k' = 33
    /\ classIsPublic k' = true /\ classIsFinal k' = false
    /\ classIsSuper k' = true.
Proof.
  destruct (proj1 (parseAccessFlags_decodes Sample.classB 23 More.poolB) 33)
    as [k' (Hk & Hflags & Hpub & Hfin & Hsup & _)].
  - reflexivity.
  - exists k'. repeat split; assumption.
Defined.

Lemma sliceAt_inv {A} (l : list A) (i : Z) (a : A) :
  sliceAt l i = Ret a -> 0 <= i /\ l !! Z.to_nat i = Some a.
Proof.
  unfold sliceAt. destruct (Z.ltb_spec i 0); [discriminate |].
  destruct (l !! Z.to_nat i) eqn:Hl; [| discriminate].
  intros [= ->]. split; [assumption | reflexivity].
Qed.

Lemma sliceAt_in_range {A} (l : list A) (i : Z) :
  0 <= i < len l -> exists a, sliceAt l i = Ret a /\ l !! Z.to_nat i = Some a.
Proof.
  intros Hi. unfold len in Hi.
  destruct (lookup_lt_is_Some_2 l (Z.to_nat i)) as [a Ha]; [lia |].
  exists a. split; [| assumption].
  apply PoolFacts.sliceAt_Ret; [lia | assumption].
Qed.

(** X4: [parseClassName] always advances the offset by two.  When it
    reports an error the class is returned unchanged.  When it succeeds,
    the 2-byte index read from the buffer is at least 1 and resolves,
    through a ClassRef entry and the UTF8 entry it points at, to a string
    of the pool, and the class returned is the one received with that
    string as its class name. *)
Theorem parseClassName_resolves bytes loc klass klass' pos err :
  parseClassName bytes loc klass = Ret (klass', pos, err) ->
  pos = loc + 2
  /\ match err with
     | Some _ => klass' = klass
     | None =>
         exists index name,
           intFrom2Bytes bytes (loc + 1) = (index, None)
           /\ 1 <= index
           /\ resolvesTo klass index name
           /\ klass' = set_className name klass
     end.
Proof.
  unfold parseClassName, mbind, outcome_bind.
  destruct (intFrom2Bytes bytes (loc + 1)) as [index [e|]] eqn:Hrd; simpl.
  { intros [= <- <- <-]. split; reflexivity. }
  destruct (Z.ltb_spec index 1); simpl.
  { intros [= <- <- <-]. split; reflexivity. }
  destruct (index >? len (cpIndex klass) - 1); simpl.
  { intros [= <- <- <-]. split; reflexivity. }
  destruct (sliceAt (cpIndex klass) index) as [ref|] eqn:Href; simpl;
    [| discriminate].
  destruct (Z.eqb_spec (entryType ref) Tag.ClassRef) as [Hcr|]; simpl;
    [| intros [= <- <- <-]; split; reflexivity].
  destruct (sliceAt (classRefs klass) (slot ref)) as [target|] eqn:Htarget;
    simpl; [| discriminate].
  destruct (sliceAt (cpIndex klass) target) as [named|] eqn:Hnamed; simpl;
    [| discriminate].
  destruct (Z.eqb_spec (entryType named) Tag.UTF8) as [Hutf|]; simpl;
    [| intros [= <- <- <-]; split; reflexivity].
  destruct (sliceAt (utf8Refs klass) (slot named)) as [name|] eqn:Hname;
    simpl; [| discriminate].
  intros [= <- <- <-]. split; [reflexivity |].
  apply sliceAt_inv in Href as [? ?], Htarget as [? ?], Hnamed as [? ?],
      Hname as [? ?].
  exists index, name. repeat split; try assumption.
  exists ref, target, named. repeat split; assumption.
Qed.

(** X4, witness: the this-class index of "B extends A", read after offset
    25, resolves to "B". *)
Lemma parseClassName_resolves_witness :
  25 + 2 = 25 + 2
  /\ exists index name,
      intFrom2Bytes Sample.classB (25 + 1) = (index, None)
      /\ 1 <= index
      /\ resolvesTo More.poolB index name
      /\ set_className "B" More.poolB = set_className name More.poolB.
Proof.
  apply (parseClassName_resolves Sample.classB 25 More.poolB
                                 (set_className "B" More.poolB)
                                 (25 + 2) None).
  vm_compute. reflexivity.
Defined.

(** X5: the super-class name may be empty for java/lang/Object only.  When
    the super-class index read from the buffer resolves to a string of the
    pool, [parseSuperClassName] refuses the empty string with the error
    "Invaild empty string for superclass name" unless the class name is
    java/lang/Object, and otherwise stores the string as the super-class
    name and changes nothing else. *)
Theorem parseSuperClassName_empty_only_for_Object
        bytes loc klass index name :
  intFrom2Bytes bytes (loc + 1) = (index, None) ->
  1 <= index ->
  resolvesTo klass index name ->
  (name = "" /\ className klass <> "java/lang/Object" ->
   parseSuperClassName bytes loc klass
   = Ret (klass, loc + 2,
          Some (cfe "Invaild empty string for superclass name")))
  /\ (name <> "" \/ className klass = "java/lang/Object" ->
      parseSuperClassName bytes loc klass
      = Ret (set_superClass name klass, loc + 2, None)).
Proof.
  intros Hrd Hindex
         (ref & target & named & H0 & Href & Hcr & H1 & Htarget & H2
          & Hnamed & Hutf & H3 & Hname).
  assert (Hrun :
    parseSuperClassName bytes loc klass
    = Ret (if String.eqb name ""
              && negb (String.eqb (className klass) "java/lang/Object")
           then (klass, loc + 2,
                 Some (cfe "Invaild empty string for superclass name"))
           else (set_superClass name klass, loc + 2, None))).
  { unfold parseSuperClassName, mbind, outcome_bind. rewrite Hrd. simpl.
    destruct (Z.ltb_spec index 1); [lia |]. simpl.
    apply lookup_lt_Some in Href as Hlt.
    destruct (Z.gtb_spec index (len (cpIndex klass) - 1));
      [unfold len in *; lia |]. simpl.
    rewrite (PoolFacts.sliceAt_Ret _ _ ref) by assumption. simpl.
    rewrite Hcr. simpl.
    rewrite (PoolFacts.sliceAt_Ret _ _ target) by assumption. simpl.
    rewrite (PoolFacts.sliceAt_Ret _ _ named) by assumption. simpl.
    rewrite Hutf. simpl.
    rewrite (PoolFacts.sliceAt_Ret _ _ name) by assumption. simpl.
    destruct (_ && _); reflexivity. }
  rewrite Hrun. split.
  - intros [-> Hobj]. apply String.eqb_neq in Hobj. rewrite Hobj.
    reflexivity.
  - intros [Hne | Hobj].
    + apply String.eqb_neq in Hne. rewrite Hne. reflexivity.
    + apply String.eqb_eq in Hobj. rewrite Hobj, andb_false_r. reflexivity.
Qed.

Lemma poolObject_super_resolves : resolvesTo More.poolObject 3 "".
Proof.
  exists (mkIndexEntry 7 1), 4, (mkIndexEntry 1 1).
  repeat split; try reflexivity; vm_compute; discriminate.
Qed.

(** X5, witness: java/lang/Object with an empty super-class name. *)
Lemma parseSuperClassName_empty_only_for_Object_witness :
  parseSuperClassName Sample.classB 27 More.poolObject
  = Ret (set_superClass "" More.poolObject, 27 + 2, None).
Proof.
  refine (proj2 (parseSuperClassName_empty_only_for_Object
                   Sample.classB 27 More.poolObject 3 "" _ _ _) _).
  - reflexivity.
  - lia.
  - exact poolObject_super_resolves.
  - right. reflexivity.
Defined.

Lemma poolLinked_same_pool k k' :
  cpIndex k' = cpIndex k -> classRefs k' = classRefs k ->
  utf8Refs k' = utf8Refs k -> poolLinked k -> poolLinked k'.
Proof.
  unfold poolLinked. intros -> -> ->. tauto.
Qed.

Lemma parseClassName_returns bytes loc klass :
  poolLinked klass ->
  exists k' pos err,
    parseClassName bytes loc klass = Ret (k', pos, err) /\ poolLinked k'.
Proof.
  intros Hlinked. pose proof Hlinked as [Hrefs Hutf].
  unfold parseClassName, mbind, outcome_bind.
  destruct (intFrom2Bytes bytes (loc + 1)) as [index [e|]]; simpl; [eauto 6 |].
  destruct (Z.ltb_spec index 1); simpl; [eauto 6 |].
  destruct (Z.gtb_spec index (len (cpIndex klass) - 1)); simpl; [eauto 6 |].
  destruct (sliceAt_in_range (cpIndex klass) index) as [ref [-> Href]];
    [lia |]. simpl.
  destruct (Z.eqb_spec (entryType ref) Tag.ClassRef) as [Hcr|]; simpl;
    [| eauto 6].
  destruct (Hrefs _ _ Href Hcr) as (target & Hslot & Htarget & Hrange).
  rewrite (PoolFacts.sliceAt_Ret _ _ target) by assumption. simpl.
  destruct (sliceAt_in_range (cpIndex klass) target) as [named [-> Hnamed]];
    [assumption |]. simpl.
  destruct (Z.eqb_spec (entryType named) Tag.UTF8) as [Hu|]; simpl;
    [| eauto 6].
  destruct (sliceAt_in_range (utf8Refs klass) (slot named)) as [name [-> _]];
    [eauto |]. simpl.
  eexists _, _, _. split; [reflexivity |].
  apply (poolLinked_same_pool klass); destruct klass; auto.
Qed.

Lemma parseSuperClassName_returns bytes loc klass :
  poolLinked klass ->
  exists r, parseSuperClassName bytes loc klass = Ret r.
Proof.
  intros [Hrefs Hutf].
  unfold parseSuperClassName, mbind, outcome_bind.
  destruct (intFrom2Bytes bytes (loc + 1)) as [index [e|]]; simpl; [eauto |].
  destruct (Z.ltb_spec index 1); simpl; [eauto |].
  destruct (Z.gtb_spec index (len (cpIndex klass) - 1)); simpl; [eauto |].
  destruct (sliceAt_in_range (cpIndex klass) index) as [ref [-> Href]];
    [lia |]. simpl.
  destruct (Z.eqb_spec (entryType ref) Tag.ClassRef) as [Hcr|]; simpl;
    [| eauto].
  destruct (Hrefs _ _ Href Hcr) as (target & Hslot & Htarget & Hrange).
  rewrite (PoolFacts.sliceAt_Ret _ _ target) by assumption. simpl.
  destruct (sliceAt_in_range (cpIndex klass) target) as [named [-> Hnamed]];
    [assumption |]. simpl.
  destruct (Z.eqb_spec (entryType named) Tag.UTF8) as [Hu|]; simpl;
    [| eauto].
  destruct (sliceAt_in_range (utf8Refs klass) (slot named)) as [name [-> _]];
    [eauto |]. simpl.
  destruct (_ && _); eauto.
Qed.

Section NoPanic.
Context `{Globals}.
Variable pcp :
  list byte -> parsedClass -> outcome (parsedClass * Z * option error).

(** X6: [parse] does not panic when the constant-pool parser returns a
    linked pool (one on which the slots of the ClassRef and UTF8 entries
    and the indexes held by the ClassRefs are in range): the unchecked
    slice accesses of the two name parsers then stay in bounds. *)
Theorem parse_returns_on_linked_pool (raw : list byte) :
  (exists k' pos err,
      pcp raw (handedToPool raw) = Ret (k', pos, err) /\ poolLinked k') ->
  exists r, parse pcp raw = Ret r.
Proof.
  intros (k' & pos & err & Hpool & Hlinked). unfold handedToPool in Hpool.
  unfold parse.
  destruct (parseMagicNumber raw); [eauto |].
  destruct (parseJavaVersionNumber raw emptyClass) as [k1 [e1|]] eqn:Hver;
    [eauto |].
  destruct (getConstantPoolCount raw k1) as [k2 [e2|]] eqn:Hcount; [eauto |].
  simpl in Hpool. rewrite Hcount in Hpool. simpl in Hpool.
  unfold mbind, outcome_bind. rewrite Hpool. simpl.
  destruct (notNil err || (pos <? 10)); [eauto |].
  destruct (parseAccessFlags raw pos k') as [[k4 pos4] err4] eqn:Hacc.
  assert (Hlinked4 : poolLinked k4).
  { unfold parseAccessFlags in Hacc.
    destruct (intFrom2Bytes raw (pos + 1)) as [f [e|]].
    - injection Hacc as <- _ _. assumption.
    - injection Hacc as <- _ _.
      apply (poolLinked_same_pool k'); destruct k'; auto. }
  destruct err4; [eauto |].
  destruct (parseClassName_returns raw pos4 k4 Hlinked4)
    as (k5 & pos5 & err5 & -> & Hlinked5). simpl.
  destruct err5; [eauto |].
  destruct (parseSuperClassName_returns raw pos5 k5 Hlinked5)
    as ([[k6 pos6] err6] & ->). simpl.
  destruct err6; eauto.
Qed.
End NoPanic.

Lemma classB_pool_linked :
  poolLinked (set_cpIndex
                [mkIndexEntry 0 0; mkIndexEntry 7 0; mkIndexEntry 1 0;
                 mkIndexEntry 7 1; mkIndexEntry 1 1]
                (set_utf8Refs ["B"; "A"] (set_classRefs [2; 4] More.poolB))).
Proof.
  split; intros i e Hi Htag;
    destruct i as [|[|[|[|[|i]]]]]; simpl in Hi; try discriminate;
      injection Hi as <-; try discriminate Htag.
  - exists 2. vm_compute. repeat split; discriminate.
  - exists 4. vm_compute. repeat split; discriminate.
  - vm_compute. split; discriminate || reflexivity.
  - vm_compute. split; discriminate || reflexivity.
Qed.

(** X6, witness: the class file "B extends A" with the constant-pool
    parser of this development. *)
Lemma parse_returns_on_linked_pool_witness :
  exists r,
    parse (H := Sample.java17) parseConstantPool Sample.classB = Ret r.
Proof.
  apply (parse_returns_on_linked_pool (H := Sample.java17) parseConstantPool
                                      Sample.classB).
  eexists _, _, _. split; [vm_compute; reflexivity |].
  exact classB_pool_linked.
Defined.

End ParserMore.

(* ===================================================================== *)
(** * Further properties of method resolution *)
(* ===================================================================== *)

Module ResolverMore.
Import ResolverFacts.

Lemma foundInMTable_hit (o : option MTentry) (found : MTentry) :
  foundInMTable (default MTentry_zero o) = Some found ->
  foundInMTable found = Some found /\ o = Some found.
Proof.
  intros Hfound. pose proof (foundInMTable_keeps _ _ Hfound) as ->.
  split; [assumption |].
  destruct o as [e|]; [reflexivity | discriminate Hfound].
Qed.

Section WithCollaborators.
Context `{Collaborators}.


(** The shape of what is returned, by cases on the whole function. *)
Lemma FetchMethodAndCP_shape className methName methType s :
  match fst (FetchMethodAndCP className methName methType s) with
  | Done (e, None) =>
      foundInMTable e = Some e
      /\ MTable (snd (FetchMethodAndCP className methName methType s))
         !! methFQN className methName methType = Some e
  | Done (e, Some _) => e = MTentry_zero
  | _ => True
  end.
Proof.
  unfold FetchMethodAndCP. run_M.
  repeat (case_match; simpl in *; simplify_eq; auto);
    try (apply foundInMTable_hit; assumption);
    try (split; [reflexivity | apply lookup_insert_eq]).
Qed.

Lemma notNil_true {A} (o : option A) : notNil o = true -> is_Some o.
Proof. destruct o; [eauto | discriminate]. Qed.

Lemma notNil_false {A} (o : option A) : notNil o = false -> o = None.
Proof. destruct o; [discriminate | reflexivity]. Qed.

(** What a call leaves alone, by cases on the whole function. *)
Lemma FetchMethodAndCP_untouched className methName methType s :
  let s' := snd (FetchMethodAndCP className methName methType s) in
  Statics s' = Statics s
  /\ (exists lines exits, logged s' = (logged s ++ lines)%list
                          /\ exitRequests s' = (exitRequests s ++ exits)%list)
  /\ (is_Some (MethArea s !! className) /\ MethArea s' = MethArea s
      \/ MethArea s !! className = None
         /\ MethArea s' = fst (loadClass className (MethArea s))).
Proof.
  unfold FetchMethodAndCP. run_M.
  repeat (case_match; simpl in *; simplify_eq);
    simpl; rewrite <- ?app_assoc;
    (split; [reflexivity |]);
    (split;
     [ eexists _, _; split; first [reflexivity | symmetry; apply app_nil_r]
     | first [ left; split;
               [first [apply notNil_true; assumption | eexists; reflexivity]
               | reflexivity]
             | right; split;
               [first [apply notNil_false; assumption | reflexivity] |];
               first [ reflexivity
                     | match goal with
                       | Hl : loadClass _ _ = _ |- _ =>
                           rewrite Hl; reflexivity
                       end ] ] ]).
Qed.

(** X7: resolving a method that the class declares.  For a class of the
    method area with a loader tag and data, reported ready by the wait,
    whose method table declares the signature, and with no usable entry
    under the key, [FetchMethodAndCP] returns a bytecode entry built from
    the method's code attribute and the class's own constant pool, stores
    it in the method table under [class.name+descriptor], and changes
    nothing else. *)
Theorem FetchMethodAndCP_caches_declared_method
        className methName methType s k data m :
  MethArea s !! className = Some k ->
  Loader k <> "" ->
  Data k = Some data ->
  waitStatus className (MethArea s) = None ->
  ClData.MethodTable data !! (methName +:+ methType) = Some m ->
  foundInMTable
    (default MTentry_zero (MTable s !! methFQN className methName methType))
  = None ->
  let entry := {| Meth := Some (JMeth (jmEntryOf m (ClData.CP data)));
                  MType := "J" |} in
  FetchMethodAndCP className methName methType s
  = (Done (entry, None),
     withMTable (<[methFQN className methName methType := entry]> (MTable s)) s)
  /\ Jm_Code (jmEntryOf m (ClData.CP data))
     = CodeAttrib.Code (Method.CodeAttr m)
  /\ Jm_MaxStack (jmEntryOf m (ClData.CP data))
     = CodeAttrib.MaxStack (Method.CodeAttr m)
  /\ Jm_MaxLocals (jmEntryOf m (ClData.CP data))
     = CodeAttrib.MaxLocals (Method.CodeAttr m)
  /\ Jm_Cp (jmEntryOf m (ClData.CP data)) = ClData.CP data.
Proof.
  intros Hk Hloader Hdata Hwait Hm Hmiss entry.
  split; [| repeat split].
  unfold FetchMethodAndCP. run_M.
  rewrite Hk. simpl. rewrite Hmiss, Hwait, Hk.
  apply String.eqb_neq in Hloader. rewrite Hloader, Hdata, Hm.
  reflexivity.
Qed.


(** X9: what [FetchMethodAndCP] returns.  An entry returned without error
    has a non-nil method and the type 'J' or 'G', and the method table
    holds it under the key of the call when the call returns; an entry
    returned with an error is the zero entry. *)
Theorem FetchMethodAndCP_returns_usable_entry
        className methName methType s e err :
  fst (FetchMethodAndCP className methName methType s) = Done (e, err) ->
  match err with
  | None =>
      (exists meth, Meth e = Some meth)
      /\ (MType e = "J"%char \/ MType e = "G"%char)
      /\ MTable (snd (FetchMethodAndCP className methName methType s))
         !! methFQN className methName methType = Some e
  | Some _ => e = MTentry_zero
  end.
Proof.
  intros Hret.
  pose proof (FetchMethodAndCP_shape className methName methType s) as Hshape.
  rewrite Hret in Hshape. destruct err as [err|]; [exact Hshape |].
  destruct Hshape as [Hfound Hstored].
  split; [| split; [| exact Hstored]].
  - unfold foundInMTable in Hfound.
    destruct (Meth e) as [meth|]; [eauto | discriminate].
  - unfold foundInMTable in Hfound.
    destruct (Meth e) as [meth|]; [| discriminate].
    destruct (Ascii.eqb_spec (MType e) "J"); [left; assumption |].
    destruct (Ascii.eqb_spec (MType e) "G"); [right; assumption |].
    discriminate.
Qed.

(** X10: what [FetchMethodAndCP] never does, whatever its arguments and
    however it ends.  It leaves the statics store alone; it only appends
    to the log and to the exit requests; it leaves every method-table
    entry under another key as it is; and it leaves the method area alone
    when the class is already there (otherwise the method area becomes
    the one the loader yields). *)
Theorem FetchMethodAndCP_frame className methName methType s :
  let s' := snd (FetchMethodAndCP className methName methType s) in
  Statics s' = Statics s
  /\ (exists lines, logged s' = (logged s ++ lines)%list)
  /\ (exists exits, exitRequests s' = (exitRequests s ++ exits)%list)
  /\ (forall key, key <> methFQN className methName methType ->
                  MTable s' !! key = MTable s !! key)
  /\ (is_Some (MethArea s !! className) -> MethArea s' = MethArea s)
  /\ (MethArea s !! className = None ->
      MethArea s' = fst (loadClass className (MethArea s))).
Proof.
  intros s'. subst s'.
  destruct (FetchMethodAndCP_untouched className methName methType s)
    as (Hstatics & (lines & exits & Hlog & Hexit) & Harea).
  split; [assumption |]. split; [eauto |]. split; [eauto |].
  split; [| split].
  - intros key Hkey.
    destruct (FetchMethodAndCP_MTable className methName methType s)
      as [-> | [_ [jme ->]]]; [reflexivity |].
    apply lookup_insert_ne. congruence.
  - intros [k Hk]. destruct Harea as [[_ Hsame] | [Hnone _]];
      [assumption | congruence].
  - intros Hnone. destruct Harea as [[[k Hk] _] | [_ Hload]];
      [congruence | assumption].
Qed.

(** X11: a class that cannot be loaded, with no test harness.  When the
    class is not in the method area and the loader hands back an error,
    [FetchMethodAndCP] ends the process with the JVM-exception code without
    writing the method table.  The last thing it logs before that is, for
    "main", the three-line diagnostic, and for any other method a warning
    naming the class and the loader's message followed by the message
    itself at SEVERE; the last exit requested is the JVM-exception one. *)
Theorem FetchMethodAndCP_unloadable_class
        className methName methType s area err :
  MethArea s !! className = None ->
  loadClass className (MethArea s) = (area, Some err) ->
  testHarness = false ->
  let r := FetchMethodAndCP className methName methType s in
  fst r = Exited JVM_EXCEPTION
  /\ MTable (snd r) = MTable s
  /\ (exists earlier,
        exitRequests (snd r) = (earlier ++ [JVM_EXCEPTION])%list)
  /\ (exists earlier,
        logged (snd r)
        = (earlier ++
           if String.eqb methName "main"
           then [(noMainMessage className, SEVERE)]
           else [("FetchMethodAndCP: LoadClassFromNameOnly for "
                  +:+ className +:+ " failed: " +:+ msg err, WARNING);
                 (msg err, SEVERE)])%list).
Proof.
  intros Hnone Hload Hprod r. subst r.
  unfold FetchMethodAndCP. run_M.
  rewrite Hnone. simpl. rewrite Hload. simpl.
  destruct (String.eqb methName "main"); simpl; rewrite Hprod; simpl.
  - repeat split; eexists; reflexivity.
  - rewrite <- app_assoc. repeat split; eexists; reflexivity.
Qed.

End WithCollaborators.

(** X7, witness: [Parent] declares [toString()Ljava/lang/String;]. *)
Lemma FetchMethodAndCP_caches_declared_method_witness :
  let entry :=
    {| Meth := Some (JMeth (jmEntryOf Sample.someMethod (Sample.pool [] [])));
       MType := "J" |} in
  FetchMethodAndCP (H := Sample.world) "Parent" "toString"
                   "()Ljava/lang/String;" Sample.family
  = (Done (entry, None),
     withMTable (<[methFQN "Parent" "toString" "()Ljava/lang/String;"
                   := entry]> (MTable Sample.family)) Sample.family).
Proof.
  refine (proj1 (FetchMethodAndCP_caches_declared_method (H := Sample.world)
                   "Parent" "toString" "()Ljava/lang/String;" Sample.family
                   Sample.Parent
                   (Sample.classData "Parent" "java/lang/Object" _)
                   Sample.someMethod _ _ _ _ _ _)).
  - reflexivity.
  - simpl. discriminate.
  - reflexivity.
  - reflexivity.
  - reflexivity.
  - reflexivity.
Defined.


(** X9, witness: the entry returned for [Parent.toString] is a bytecode
    entry kept under its key. *)
Lemma FetchMethodAndCP_returns_usable_entry_witness :
  let entry :=
    {| Meth := Some (JMeth (jmEntryOf Sample.someMethod (Sample.pool [] [])));
       MType := "J"%char |} in
  (exists meth, Meth entry = Some meth)
  /\ (MType entry = "J"%char \/ MType entry = "G"%char)
  /\ MTable (snd (FetchMethodAndCP (H := Sample.world) "Parent" "toString"
                    "()Ljava/lang/String;" Sample.family))
     !! methFQN "Parent" "toString" "()Ljava/lang/String;" = Some entry.
Proof.
  apply (FetchMethodAndCP_returns_usable_entry (H := Sample.world)
           "Parent" "toString" "()Ljava/lang/String;" Sample.family _ None).
  vm_compute. reflexivity.
Defined.

(** X11, witness: a class the loader does not find. *)
Lemma FetchMethodAndCP_unloadable_class_witness :
  let r := FetchMethodAndCP (H := Sample.world) "Missing" "run" "()V"
                            Sample.emptyVM in
  fst r = Exited JVM_EXCEPTION
  /\ MTable (snd r) = MTable Sample.emptyVM
  /\ (exists earlier,
        exitRequests (snd r) = (earlier ++ [JVM_EXCEPTION])%list)
  /\ (exists earlier,
        logged (snd r)
        = (earlier ++
           [("FetchMethodAndCP: LoadClassFromNameOnly for Missing failed: "
             +:+ "class not found: Missing", WARNING);
            ("class not found: Missing", SEVERE)])%list).
Proof.
  apply (FetchMethodAndCP_unloadable_class (H := Sample.world)
           "Missing" "run" "()V" Sample.emptyVM ∅
           (errorsNew "class not found: Missing")).
  - reflexivity.
  - reflexivity.
  - reflexivity.
Defined.


End ResolverMore.

(* ===================================================================== *)
(** * Further properties of the accessor and of the natives *)
(* ===================================================================== *)

Module NativeMore.

(** X13: what [FetchUTF8stringFromCPEntryNumber] does to the state.  It
    never touches the method area, the method table, the statics or the
    exit requests.  A refusal is logged as one line at SEVERE: the
    out-of-bounds message with the entry and the converted length, or the
    wrong-tag message with the entry and its tag.  A call that passes both
    checks logs nothing, so an empty string stored in the pool is told
    from a refusal by the log only. *)
Theorem FetchUTF8_logs_refusals cp entry s :
  let r := FetchUTF8stringFromCPEntryNumber cp entry s in
  (MethArea (snd r) = MethArea s /\ MTable (snd r) = MTable s
   /\ Statics (snd r) = Statics s /\ exitRequests (snd r) = exitRequests s)
  /\ (entry < 1 \/ uint16 (len (CpIndex cp)) <= entry ->
      logged (snd r)
      = (logged s ++
         [("FetchUTF8stringFromCPEntryNumber: entry=" +:+ Itoa entry +:+
           " is out of bounds(1, " +:+ Itoa (uint16 (len (CpIndex cp)))
           +:+ ")", SEVERE)])%list)
  /\ (forall u,
        1 <= entry < uint16 (len (CpIndex cp)) ->
        CpIndex cp !! Z.to_nat entry = Some u ->
        (Type_ u <> Tag.UTF8 ->
         logged (snd r)
         = (logged s ++
            [("FetchUTF8stringFromCPEntryNumber: cp.CpIndex[" +:+ Itoa entry
              +:+ "].Type=" +:+ Itoa (Type_ u) +:+ ", expected UTF8",
              SEVERE)])%list)
        /\ (Type_ u = Tag.UTF8 -> snd r = s)).
Proof.
  intros r. subst r. unfold FetchUTF8stringFromCPEntryNumber.
  split; [| split].
  - destruct (_ || _); [repeat split |].
    unfold mbind, M_bind, liftO.
    destruct (sliceAt (CpIndex cp) entry) as [u|]; [| repeat split].
    destruct (negb _); [repeat split |].
    destruct (sliceAt (Utf8Refs cp) (Slot u)); repeat split.
  - intros Hout.
    destruct (Z.ltb_spec entry 1); [reflexivity |].
    destruct (Z.geb_spec entry (uint16 (len (CpIndex cp))));
      [reflexivity | lia].
  - intros u Hin Hu.
    destruct (Z.ltb_spec entry 1); [lia |].
    destruct (Z.geb_spec entry (uint16 (len (CpIndex cp)))); [lia |].
    simpl. unfold mbind, M_bind, liftO.
    rewrite (PoolFacts.sliceAt_Ret _ _ u) by (assumption || lia).
    split; intros Htag.
    + destruct (Z.eqb_spec (Type_ u) Tag.UTF8); [contradiction |].
      reflexivity.
    + rewrite Htag. simpl.
      destruct (sliceAt (Utf8Refs cp) (Slot u)); reflexivity.
Qed.

(** X13, witness: entry 2 of the sample pool is a ClassRef. *)
Lemma FetchUTF8_logs_refusals_witness :
  logged (snd (FetchUTF8stringFromCPEntryNumber Sample.goodPool 2
                                                Sample.emptyVM))
  = [("FetchUTF8stringFromCPEntryNumber: cp.CpIndex[2].Type=7, expected UTF8",
      SEVERE)].
Proof.
  refine (proj1 (proj2 (proj2 (FetchUTF8_logs_refusals
                                 Sample.goodPool 2 Sample.emptyVM))
                       (mkCpEntry 7 0) _ _) _).
  - vm_compute. split; discriminate || reflexivity.
  - reflexivity.
  - vm_compute. intros Htag. discriminate Htag.
Defined.

Lemma wrapper_not_empty str wrapper :
  (str, wrapper) ∈ primitiveWrappers -> String.eqb wrapper "" = false.
Proof.
  unfold primitiveWrappers. intros Hin.
  repeat (apply elem_of_cons in Hin as [[= -> ->] | Hin]; [reflexivity |]).
  apply elem_of_nil in Hin. contradiction.
Qed.

Ltac run_native :=
  unfold getPrimitiveClass, simpleClassLoadByName, mbind, M_bind, mret, M_ret,
    MethAreaFetch, LoadClassFromNameOnly, shutdownExit, Log, panic; simpl.

Section WithCollaborators.
Context `{Collaborators}.

(** X14: a wrapper class that cannot be loaded, under a test harness.
    For one of the nine words whose wrapper class is absent, when the
    loader hands back an error and a test harness intercepts the exit,
    [getPrimitiveClass] returns the error "getPrimitiveClass() does not
    handle: <word>" although the word is one it handles.  The last lines
    it logs, all at SEVERE, are "instantiateClass()-getPrimitivelass():
    Failed to load class W", the loader's message and that error text, and
    the last exit it requests is the application-exception one. *)
Theorem getPrimitiveClass_unloadable_wrapper o rest s wrapper area err :
  (GetGoStringFromJavaStringPtr o, wrapper) ∈ primitiveWrappers ->
  MethArea s !! wrapper = None ->
  loadClass wrapper (MethArea s) = (area, Some err) ->
  testHarness = true ->
  let str := GetGoStringFromJavaStringPtr o in
  let r := getPrimitiveClass (IObject o :: rest) s in
  fst r = Done (IError (errorsNew ("getPrimitiveClass() does not handle: "
                                   +:+ str)))
  /\ (exists earlier,
        logged (snd r)
        = (earlier ++
           [("instantiateClass()-getPrimitivelass(): Failed to load class "
             +:+ wrapper, SEVERE);
            (msg err, SEVERE);
            ("getPrimitiveClass() does not handle: " +:+ str, SEVERE)])%list)
  /\ (exists earlier,
        exitRequests (snd r) = (earlier ++ [APP_EXCEPTION])%list).
Proof.
  intros Hin Hnone Hload Hharness str r. subst r.
  pose proof (wrapper_not_empty _ _ Hin) as Hne.
  unfold getPrimitiveClass. cbv beta iota zeta.
  rewrite (NativeFacts.wrapperOf_table _ _ Hin). run_native.
  rewrite Hnone, Hload. simpl. rewrite Hne, Hharness. simpl.
  split; [reflexivity |]. split.
  - exists (logged s). rewrite <- !app_assoc. reflexivity.
  - eexists. reflexivity.
Qed.

(** X15: looking a primitive class up is stable.  Once a call for one of
    the nine words has returned a class, the same call made again returns
    the same class and leaves the state exactly as it is: the loader is
    not consulted again. *)
Theorem getPrimitiveClass_idempotent o rest s wrapper k :
  (GetGoStringFromJavaStringPtr o, wrapper) ∈ primitiveWrappers ->
  fst (getPrimitiveClass (IObject o :: rest) s) = Done (IKlass (Some k)) ->
  getPrimitiveClass (IObject o :: rest)
                    (snd (getPrimitiveClass (IObject o :: rest) s))
  = (Done (IKlass (Some k)), snd (getPrimitiveClass (IObject o :: rest) s)).
Proof.
  intros Hin. unfold getPrimitiveClass. cbv beta iota zeta.
  rewrite (NativeFacts.wrapperOf_table _ _ Hin). run_native.
  destruct (MethArea s !! wrapper) as [k0|] eqn:Hk0; simpl.
  - intros [= ->]. rewrite ?Hk0. reflexivity.
  - destruct (loadClass wrapper (MethArea s)) as [area [err|]] eqn:Hload;
      simpl.
    + destruct testHarness; simpl; discriminate.
    + destruct (area !! wrapper) as [k1|] eqn:Hk1; simpl; [| discriminate].
      intros [= ->]. rewrite ?Hk1. reflexivity.
Qed.


(** X17: [getPrimitiveClass] panics, leaving the state as it is, when it
    is called without a parameter (the access to [params[0]]) or with a
    first parameter that does not hold an object reference (the type
    assertion), a nil interface value included. *)
Theorem getPrimitiveClass_panics_without_object params s :
  params = [] \/ (exists v rest, params = v :: rest
                                /\ forall o, v <> IObject o) ->
  getPrimitiveClass params s = (Panicked, s).
Proof.
  intros [-> | (v & rest & -> & Hv)]; [reflexivity |].
  destruct v as [| x | o | k | e]; try reflexivity.
  exfalso. apply (Hv o). reflexivity.
Qed.
End WithCollaborators.

(** X14, witness: "long" with a loader that finds nothing, under a test
    harness. *)
Lemma getPrimitiveClass_unloadable_wrapper_witness :
  let r := getPrimitiveClass (H := More.harness) [IObject (mkObject "long")]
                             Sample.emptyVM in
  fst r = Done (IError (errorsNew "getPrimitiveClass() does not handle: long"))
  /\ (exists earlier,
        logged (snd r)
        = (earlier ++
           [("instantiateClass()-getPrimitivelass(): Failed to load class "
             +:+ "java/lang/Long", SEVERE);
            ("class not found: java/lang/Long", SEVERE);
            ("getPrimitiveClass() does not handle: long", SEVERE)])%list)
  /\ (exists earlier,
        exitRequests (snd r) = (earlier ++ [APP_EXCEPTION])%list).
Proof.
  apply (getPrimitiveClass_unloadable_wrapper
           (H := More.harness) (mkObject "long") []
           Sample.emptyVM "java/lang/Long" ∅
           (errorsNew "class not found: java/lang/Long")).
  - unfold primitiveWrappers. simpl.
    do 6 apply list_elem_of_further. apply list_elem_of_here.
  - reflexivity.
  - reflexivity.
  - reflexivity.
Defined.

(** X17, witness: no parameter, and a number as first parameter. *)
Lemma getPrimitiveClass_panics_without_object_witness :
  getPrimitiveClass (H := Sample.world) [] Sample.emptyVM
  = (Panicked, Sample.emptyVM)
  /\ getPrimitiveClass (H := Sample.world) [IInt64 7] Sample.emptyVM
     = (Panicked, Sample.emptyVM).
Proof.
  split.
  - apply (getPrimitiveClass_panics_without_object (H := Sample.world)).
    left. reflexivity.
  - apply (getPrimitiveClass_panics_without_object (H := Sample.world)).
    right. exists (IInt64 7), []. split; [reflexivity | discriminate].
Defined.

(** X15, witness: "int" twice, the first call loading java/lang/Integer. *)
Lemma getPrimitiveClass_idempotent_witness :
  let once := getPrimitiveClass (H := Sample.worldWithInteger)
                                [IObject (mkObject "int")] Sample.emptyVM in
  getPrimitiveClass (H := Sample.worldWithInteger)
                    [IObject (mkObject "int")] (snd once)
  = (Done (IKlass (Some Sample.integerKlass)), snd once).
Proof.
  apply (getPrimitiveClass_idempotent (H := Sample.worldWithInteger)
           (mkObject "int") [] Sample.emptyVM "java/lang/Integer").
  - unfold primitiveWrappers. simpl.
    do 5 apply list_elem_of_further. apply list_elem_of_here.
  - vm_compute. reflexivity.
Defined.


(** X18: [getAssertionsEnabledStatus] ignores its parameters and never
    changes the state; it panics exactly when the statics store holds no
    [int64] under "main.$assertionsDisabled" (no entry, or a value of
    another type), and otherwise returns an [int64], never an error. *)
Theorem getAssertionsEnabledStatus_panics_iff params s :
  snd (getAssertionsEnabledStatus params s) = s
  /\ getAssertionsEnabledStatus params s = getAssertionsEnabledStatus [] s
  /\ (fst (getAssertionsEnabledStatus params s) = Panicked
      <-> ~ (exists st x, Statics s !! "main.$assertionsDisabled" = Some st
                          /\ Value st = IInt64 x))
  /\ (forall v, fst (getAssertionsEnabledStatus params s) = Done v ->
                exists x, v = IInt64 x).
Proof.
  unfold getAssertionsEnabledStatus, mbind, M_bind, mret, M_ret, StaticsGet,
    panic. simpl.
  destruct (Statics s !! "main.$assertionsDisabled") as [st|] eqn:Hst; simpl.
  - destruct (Value st) as [| x | o | k | e] eqn:Hval; simpl;
      (split; [reflexivity |]); (split; [reflexivity |]); split;
        try (split; [intros _ (st' & x' & [= <-] & Hx); congruence
                    | reflexivity]);
        try (intros v [= <-]; eauto); try discriminate.
    split; [discriminate |]. intros Hnot. exfalso. apply Hnot. eauto.
  - split; [reflexivity |]. split; [reflexivity |]. split.
    + split; [intros _ (st' & x' & Hsome & _); discriminate | reflexivity].
    + discriminate.
Qed.

(** X19: [Load_Lang_Class] registers four natives of java/lang/Class with
    their parameter-slot counts: getPrimitiveClass (1 slot),
    desiredAssertionStatus (0 slots) and desiredAssertionStatus0 (1 slot),
    both served by [getAssertionsEnabledStatus], and registerNatives (0
    slots).  It overwrites what the table held under these four keys,
    leaves every other key as it is, and registering twice is the same as
    registering once. *)
Theorem Load_Lang_Class_registers (table : gmap string GMeth) :
  let table' := Load_Lang_Class table in
  table' !! "java/lang/Class.getPrimitiveClass(Ljava/lang/String;)Ljava/lang/Class;"
  = Some (mkGMeth 1 Go_getPrimitiveClass)
  /\ table' !! "java/lang/Class.desiredAssertionStatus()Z"
     = Some (mkGMeth 0 Go_getAssertionsEnabledStatus)
  /\ table' !! "java/lang/Class.desiredAssertionStatus0()Z"
     = Some (mkGMeth 1 Go_getAssertionsEnabledStatus)
  /\ table' !! "java/lang/Class.registerNatives()V"
     = Some (mkGMeth 0 Go_justReturn)
  /\ (forall key,
         key <> "java/lang/Class.getPrimitiveClass(Ljava/lang/String;)Ljava/lang/Class;" ->
         key <> "java/lang/Class.desiredAssertionStatus()Z" ->
         key <> "java/lang/Class.desiredAssertionStatus0()Z" ->
         key <> "java/lang/Class.registerNatives()V" ->
         table' !! key = table !! key)
  /\ Load_Lang_Class table' = table'.
Proof.
  intros table'. subst table'. unfold Load_Lang_Class.
  repeat split.
  - rewrite !lookup_insert. repeat case_decide; congruence.
  - rewrite !lookup_insert. repeat case_decide; congruence.
  - rewrite !lookup_insert. repeat case_decide; congruence.
  - rewrite !lookup_insert. repeat case_decide; congruence.
  - intros key H1 H2 H3 H4.
    rewrite !lookup_insert. repeat case_decide; congruence.
  - apply map_eq. intros key.
    rewrite !lookup_insert. repeat case_decide; congruence.
Qed.

End NativeMore.
